(** * ProductCatalog: a shallow embedding of the storefront catalog component

    Source: [apps/web/src/app/_components/features/ProductCatalog.tsx].

    The component is a React function component.  Its hooks are modelled by
    explicit state passing:
    - [useState] cells and jotai atoms are the fields of [State];
    - event handlers are computations in the monad [Act], which threads
      the state and logs the calls made to collaborators ([effect]);
    - the JSX returned by the component is the value of [render], a tree
      of type [View]; an exception thrown while rendering is [Throw].

    Prices are IEEE 754 binary64 numbers, as every JavaScript [number] is,
    and the price formula is computed on them with the operations of the
    machine ([PrimFloat]).  Product ids, counts and cursors are integers
    (the model covers the safe integers, which a [number] holds exactly);
    window metrics are exact rationals.  Values whose run-time shape the
    type checker of the source does not enforce (the NFT metadata, which is
    the unchecked result of [JSON.parse]) are modelled dynamically, as
    [jsval]. *)

From Stdlib Require Import ZArith QArith String Ascii Floats.
From stdpp Require Import base option list strings pretty gmap.

Set Warnings "-register-all".
#[local] Open Scope Z_scope.
#[local] Open Scope string_scope.
#[local] Open Scope list_scope.

(** ** JavaScript values *)

Inductive jsval : Type :=
| JUndefined
| JNull
| JBool (b : bool)
| JNum (q : Q)
| JStr (s : string)
| JArr (l : list jsval)
| JObj (fields : gmap string jsval).

(** ToBoolean, as used by [c ? a : b] and [&&]. *)
Definition truthy (v : jsval) : bool :=
  match v with
  | JUndefined | JNull => false
  | JBool b => b
  | JNum q => negb (Qeq_bool q 0)
  | JStr s => negb (String.eqb s "")
  | JArr _ | JObj _ => true
  end.

Definition nullish (v : jsval) : bool :=
  match v with
  | JUndefined | JNull => true
  | _ => false
  end.

(** [v?.k] for a key [k] that no prototype defines (the component reads
    [imageUrl], [region], [farmName] and [strength] only): an own property
    of an object, [undefined] on everything else. *)
Definition opt_get (v : jsval) (k : string) : jsval :=
  match v with
  | JObj fields => default JUndefined (fields !! k)
  | _ => JUndefined
  end.

(** [a ?? b] *)
Definition coalesce (a b : jsval) : jsval :=
  if nullish a then b else a.

(** ** Exceptions *)

Variant exn : Set := TypeError | SyntaxError.

Inductive result (A : Type) : Type :=
| Ok (a : A)
| Throw (e : exn).
Arguments Ok {A} a.
Arguments Throw {A} e.

#[global] Instance result_ret : MRet result := λ A a, Ok a.
#[global] Instance result_bind : MBind result := λ A B f m,
  match m with
  | Ok a => f a
  | Throw e => Throw e
  end.

(** ** The platform

    Built-ins and collaborators the component calls but does not define:
    [JSON.parse], [String.prototype.toLowerCase], the i18n lookup [t] (with
    and without a [count] option) and the build-time environment variable
    [process.env.NEXT_PUBLIC_GATEWAY_URL]. *)
Class Platform : Type := {
  JSON_parse : string → result jsval;
  toLowerCase : string → string;
  t : string → string;
  t_count : string → Z → string;
  NEXT_PUBLIC_GATEWAY_URL : option string;
}.

(** A value interpolated in a template literal: [`${x}`]. *)
Definition template (x : option string) : string :=
  default "undefined" x.

(** ** Data model *)

Module Product.
Record t : Type := mk {
  id : Z;
  name : string;
  price : float;
  stock : option Z;          (* [undefined]/[null] is [None] *)
  hidden : option bool;      (* [undefined]/[null] is [None] *)
  nftMetadata : jsval;
  process : option string;
}.

(** [{ ...product, process: "Natural", stock: product.stock ?? 0 }] *)
Definition normalize (product : t) : t :=
  {| id := id product;
     name := name product;
     price := price product;
     stock := Some (default 0 (stock product));
     hidden := hidden product;
     nftMetadata := nftMetadata product;
     process := Some "Natural" |}.

(** [{ ...product, stock: product.stock ?? 0 }] *)
Definition with_stock (product : t) : t :=
  {| id := id product;
     name := name product;
     price := price product;
     stock := Some (default 0 (stock product));
     hidden := hidden product;
     nftMetadata := nftMetadata product;
     process := process product |}.

Definition with_nftMetadata (product : t) (v : jsval) : t :=
  {| id := id product;
     name := name product;
     price := price product;
     stock := stock product;
     hidden := hidden product;
     nftMetadata := v;
     process := process product |}.

(** [product.hidden !== true] *)
Definition visible (product : t) : Prop := hidden product ≠ Some true.

#[global] Instance visible_dec product : Decision (visible product).
Proof. unfold visible. apply _. Defined.
End Product.

(** One page of [api.product.getProducts]. *)
Record Page : Type := {
  page_products : list Product.t;
  nextCursor : option Z;
}.

(** What [useInfiniteQuery] hands to the component on a render. *)
Record InfiniteQuery : Type := {
  data : option (list Page);
  hasNextPage : option bool;
  isFetchingNextPage : bool;
}.

Variant callback : Set := Callback.

Record ProductCatalogProps : Type := {
  isConnected : option bool;
  onConnect : option callback;
}.

(** The variables of one [addToCart] call.  Every call of the component
    passes the same pair of per-call callbacks, so the variables identify
    the call. *)
Module AddToCart.
Record input : Type := {
  productId : Z;
  quantity : Z;
}.
End AddToCart.

(** The hook state of the component: two [useState] cells, the four jotai
    atoms, and the mutations the mutation hook has in flight. *)
Record State : Type := {
  products : list Product.t;
  addingToCart : option Z;
  results : list Product.t;
  isLoadingResults : bool;
  quantity : Z;
  query : string;
  inFlight : list AddToCart.input;
}.

(** ** Effects *)

Inductive effect : Type :=
| CallOnConnect
| CartAdd (input : AddToCart.input)
| RefetchCart
| FetchNextPage
| RouterPush (path : string).

#[global] Instance input_eq_dec : EqDecision AddToCart.input.
Proof. solve_decision. Defined.
#[global] Instance effect_eq_dec : EqDecision effect.
Proof. solve_decision. Defined.

Definition Act (A : Type) : Type := State → A * State * list effect.

#[global] Instance Act_ret : MRet Act := λ A a s, (a, s, []).
#[global] Instance Act_bind : MBind Act := λ A B f m s,
  let '(a, s1, l1) := m s in
  let '(b, s2, l2) := f a s1 in
  (b, s2, l1 ++ l2).

Definition emit (e : effect) : Act unit := λ s, (tt, s, [e]).
Definition modify (f : State → State) : Act unit := λ s, (tt, f s, []).
Definition getState : Act State := λ s, (s, s, []).
Definition skip : Act unit := mret tt.

Definition exec {A} (m : Act A) (s : State) : State := snd (fst (m s)).
Definition trace {A} (m : Act A) (s : State) : list effect := snd (m s).

(** The setters of the hooks. *)
Definition setProducts (v : list Product.t) : Act unit :=
  modify (λ s, {| products := v; addingToCart := addingToCart s;
                  results := results s; isLoadingResults := isLoadingResults s;
                  quantity := quantity s; query := query s;
                  inFlight := inFlight s |}).
Definition setAddingToCart (v : option Z) : Act unit :=
  modify (λ s, {| products := products s; addingToCart := v;
                  results := results s; isLoadingResults := isLoadingResults s;
                  quantity := quantity s; query := query s;
                  inFlight := inFlight s |}).
Definition setSearchResults (v : list Product.t) : Act unit :=
  modify (λ s, {| products := products s; addingToCart := addingToCart s;
                  results := v; isLoadingResults := isLoadingResults s;
                  quantity := quantity s; query := query s;
                  inFlight := inFlight s |}).
Definition setIsLoading (v : bool) : Act unit :=
  modify (λ s, {| products := products s; addingToCart := addingToCart s;
                  results := results s; isLoadingResults := v;
                  quantity := quantity s; query := query s;
                  inFlight := inFlight s |}).
Definition setQuantityProducts (v : Z) : Act unit :=
  modify (λ s, {| products := products s; addingToCart := addingToCart s;
                  results := results s; isLoadingResults := isLoadingResults s;
                  quantity := v; query := query s;
                  inFlight := inFlight s |}).
Definition setQuery (v : string) : Act unit :=
  modify (λ s, {| products := products s; addingToCart := addingToCart s;
                  results := results s; isLoadingResults := isLoadingResults s;
                  quantity := quantity s; query := v;
                  inFlight := inFlight s |}).
Definition setInFlight (v : list AddToCart.input) : Act unit :=
  modify (λ s, {| products := products s; addingToCart := addingToCart s;
                  results := results s; isLoadingResults := isLoadingResults s;
                  quantity := quantity s; query := query s;
                  inFlight := v |}).

(** ** The market fee *)

Definition MARKET_FEE_BPS : float := 5000%float. (* 50% *)

Definition calculateTotalPrice (price : float) : float :=
  let fee := ((price * MARKET_FEE_BPS) / 10000)%float in
  (price + fee)%float.

(** Prices to try the formula on. *)
Module Binary64.



End Binary64.

(** ** Clearing the search *)

Definition clearSearch : Act unit :=
  setQuantityProducts 0 ;;
  setSearchResults [] ;;
  setIsLoading false ;;
  setQuery "".

(** ** The component *)

Record WindowMetrics : Type := {
  innerHeight : Q;    (* [window.innerHeight] *)
  scrollY : Q;        (* [window.scrollY] *)
  offsetHeight : Q;   (* [document.body.offsetHeight] *)
}.

(** The props the component passes to [ProductCard].  The two handlers are
    the computations the card runs on a click. *)
Record ProductCardProps : Type := {
  key : Z;
  image : string;
  region : jsval;
  farmName : jsval;
  variety : string;
  card_price : float;
  card_stock : option Z;
  badgeText : string;
  onClick : Act unit;
  onAddToCart : Act unit;
  card_isConnected : option bool;
  isAddingToShoppingCart : bool;
}.

(** [<div key={product.id}>{renderProduct(product)}</div>] *)
Record Cell : Type := {
  cell_key : Z;
  cell_child : option ProductCardProps;
}.

Variant Body : Type :=
| SearchResults (header : string) (cells : list Cell)
| NoResults
| CatalogGrid (cells : list Cell).

Variant View : Type :=
| Skeletons
| Content (body : Body) (nextPageSkeletons : bool).

Variant outcome : Set := Success | Failure.

Section ProductCatalog.
Context {platform : Platform}.
Variable props : ProductCatalogProps.

(** *** The mutation hook

    [mutate] registers the call and sends the request.  When a request
    settles with success, the [onSuccess] given to [useMutation] runs, for
    every call.  The callbacks given to [mutate] belong to the observer of
    the hook, and the observer follows the latest call only: they run when
    the latest call settles, after the one of [useMutation], and they do
    not run for a call that a later call has superseded.  The calls in
    flight are kept in call order, so the latest call, while it is in
    flight, is the last of them.  Once the latest call has settled, its
    callbacks have set the marker to [null]; should an older call settle
    after that, the model writes [null] over [null] where the hook writes
    nothing ([hook_run_agrees] below). *)
Definition addToCart (input : AddToCart.input) : Act unit :=
  s ← getState;
  setInFlight (inFlight s ++ [input]) ;;
  emit (CartAdd input).

Definition refetchCart : Act unit := emit RefetchCart.

(** [useMutation({ onSuccess: () => { void refetchCart(); } })] *)
Definition useMutation_onSuccess : Act unit := refetchCart.
(** The [onSuccess] and [onError] of the call in [handleAddToCart]. *)
Definition mutate_onSuccess : Act unit := setAddingToCart None.
Definition mutate_onError : Act unit := setAddingToCart None.

(** The [i]-th mutation in flight settles. *)
Definition settle (i : nat) (o : outcome) : Act unit :=
  s ← getState;
  match inFlight s !! i with
  | None => skip
  | Some _ =>
      setInFlight (delete i (inFlight s)) ;;
      match o with
      | Success => useMutation_onSuccess
      | Failure => skip
      end ;;
      if decide (S i = length (inFlight s)) then
        match o with
        | Success => mutate_onSuccess
        | Failure => mutate_onError
        end
      else skip
  end.

(** *** Page accumulation (the first [useEffect]) *)
Definition allProducts (pages : list Page) : list Product.t :=
  pages ≫= λ page,
    Product.normalize <$> filter Product.visible (page_products page).

Definition syncProducts (q : InfiniteQuery) : Act unit :=
  match data q with
  | Some pages => setProducts (allProducts pages)
  | None => skip
  end.

(** *** Infinite scroll *)
Definition handleScroll (q : InfiniteQuery) (w : WindowMetrics) : Act unit :=
  if Qle_bool (offsetHeight w - 100) (innerHeight w + scrollY w)
     && negb (isFetchingNextPage q)
     && default false (hasNextPage q)
  then emit FetchNextPage
  else skip.

(** A run of scroll events, all handled by the listener of one render. *)
Definition scrollAll (q : InfiniteQuery) (ws : list WindowMetrics) : Act unit :=
  foldr (λ w rest, handleScroll q w ;; rest) skip ws.


(** Lines 93-95, for a product id that is a safe integer. *)
Definition accessProductDetails (productId : Z) : Act unit :=
  emit (RouterPush ("/product/" +:+ pretty productId)).

(** *** Rendering one product *)

(** Lines 102-112: parse a serialized metadata value, keep a structured
    one. *)
Definition parseMetadata (nftMetadata : jsval) : jsval :=
  match nftMetadata with
  | JStr s =>
      match JSON_parse s with
      | Ok metadata => metadata
      | Throw _ => JNull
      end
  | _ => nftMetadata
  end.

(** Lines 114-118.  [startsWith] exists on strings only. *)
Definition imageUrl (metadata : jsval) : result string :=
  let v := opt_get metadata "imageUrl" in
  if truthy v then
    match v with
    | JStr s =>
        if String.prefix "Qm" s
        then Ok (template NEXT_PUBLIC_GATEWAY_URL +:+ "/ipfs/" +:+ s)
        else Ok s
    | _ => Throw TypeError
    end
  else Ok "/images/cafe1.webp".

(** [metadata?.strength?.toLowerCase()] *)
Definition strength (metadata : jsval) : result (option string) :=
  match opt_get metadata "strength" with
  | JUndefined | JNull => Ok None
  | JStr s => Ok (Some (toLowerCase s))
  | _ => Throw TypeError
  end.

Definition handleAddToCart (product : Product.t) : Act unit :=
  if negb (default false (isConnected props)) && bool_decide (is_Some (onConnect props))
  then emit CallOnConnect
  else
    setAddingToCart (Some (Product.id product)) ;;
    addToCart {| AddToCart.productId := Product.id product;
                 AddToCart.quantity := 1 |}.

(** [addingToCart === product.id] *)
Definition isAdding (s : State) (product : Product.t) : bool :=
  bool_decide (addingToCart s = Some (Product.id product)).

Definition renderProduct (s : State) (product : Product.t)
  : result (option ProductCardProps) :=
  if decide (Product.hidden product = Some true) then Ok None
  else
    let metadata := parseMetadata (Product.nftMetadata product) in
    url ← imageUrl metadata;
    let totalPrice := calculateTotalPrice (Product.price product) in
    lower ← strength metadata;
    Ok (Some
      {| key := Product.id product;
         image := url;
         region := coalesce (opt_get metadata "region") (JStr "");
         farmName := coalesce (opt_get metadata "farmName") (JStr "");
         variety := t (Product.name product);
         card_price := totalPrice;
         card_stock := Product.stock product;
         badgeText := t ("strength." +:+ template lower);
         onClick := accessProductDetails (Product.id product);
         onAddToCart := handleAddToCart product;
         card_isConnected := isConnected props;
         isAddingToShoppingCart := isAdding s product |}).

(** The card of a visible product whose metadata is [null] or
    [undefined]. *)
Definition bare_card (s : State) (p : Product.t) : ProductCardProps :=
  {| key := Product.id p;
     image := "/images/cafe1.webp";
     region := JStr "";
     farmName := JStr "";
     variety := t (Product.name p);
     card_price := calculateTotalPrice (Product.price p);
     card_stock := Product.stock p;
     badgeText := t "strength.undefined";
     onClick := accessProductDetails (Product.id p);
     onAddToCart := handleAddToCart p;
     card_isConnected := isConnected props;
     isAddingToShoppingCart := isAdding s p |}.

(** *** The returned tree *)
Definition searchCells (s : State) : result (list Cell) :=
  mapM (λ product,
          child ← renderProduct s (Product.with_stock product);
          mret {| cell_key := Product.id product; cell_child := child |})
       (filter Product.visible (results s)).

Definition catalogCells (s : State) : result (list Cell) :=
  mapM (λ product,
          child ← renderProduct s product;
          mret {| cell_key := Product.id product; cell_child := child |})
       (products s).

Definition render (q : InfiniteQuery) (s : State) : result View :=
  if isLoadingResults s then Ok Skeletons
  else
    body ← (if decide (0 < length (results s))%nat then
              cells ← searchCells s;
              mret (SearchResults (t_count "products_found" (quantity s)) cells)
            else if negb (String.eqb (query s) "") then
              mret NoResults
            else
              cells ← catalogCells s;
              mret (CatalogGrid cells));
    mret (Content body (isFetchingNextPage q)).
End ProductCatalog.

(** ** The scroll listener and the query hook together

    The part of the query hook the listener relies on: [fetchNextPage]
    starts a request and [isFetchingNextPage] is true from then until that
    request settles; a page that arrives is appended to [data], and
    [hasNextPage] is whether [getNextPageParam] (line 58: the page's
    [nextCursor]) gives a cursor.  Every event is handled by the listener
    of the latest render. *)

Record Pager : Type := {
  pager_query : InfiniteQuery;
  requests : nat;   (* page requests started and not settled *)
}.

Variant event : Type :=
| Scroll (w : WindowMetrics)
| PageArrived (page : Page)
| PageFailed.

Definition getNextPageParam (lastPage : Page) : option Z := nextCursor lastPage.

Definition fetchNextPage (pg : Pager) : Pager :=
  {| pager_query :=
       {| data := data (pager_query pg);
          hasNextPage := hasNextPage (pager_query pg);
          isFetchingNextPage := true |};
     requests := S (requests pg) |}.

Definition pager_step (s : State) (pg : Pager) (e : event) : Pager :=
  match e with
  | Scroll w =>
      if bool_decide (FetchNextPage ∈ trace (handleScroll (pager_query pg) w) s)
      then fetchNextPage pg
      else pg
  | PageArrived page =>
      {| pager_query :=
           {| data := Some (default [] (data (pager_query pg)) ++ [page]);
              hasNextPage := Some (bool_decide (is_Some (getNextPageParam page)));
              isFetchingNextPage := false |};
         requests := pred (requests pg) |}
  | PageFailed =>
      {| pager_query :=
           {| data := data (pager_query pg);
              hasNextPage := hasNextPage (pager_query pg);
              isFetchingNextPage := false |};
         requests := pred (requests pg) |}
  end.

Definition pager_run (s : State) (pg : Pager) (es : list event) : Pager :=
  foldl (pager_step s) pg es.

(** No request is out and the hook says so. *)
Definition idle (pg : Pager) : Prop :=
  requests pg = 0%nat ∧ isFetchingNextPage (pager_query pg) = false.

(** Either nothing is requested and the hook is not fetching, or one
    request is out and the hook is fetching. *)
Definition pager_inv (pg : Pager) : Prop :=
  requests pg = (if isFetchingNextPage (pager_query pg) then 1 else 0)%nat.

(** The variables [handleAddToCart] passes for a product. *)
Definition cart_input (p : Product.t) : AddToCart.input :=
  {| AddToCart.productId := Product.id p; AddToCart.quantity := 1 |}.

(** ** The mutation hook with its observer spelled out

    [observing] says that the latest [mutate] call has not settled: it is
    then the last call in flight, and the per-call callbacks are still to
    run.  A click that issues a mutation makes the observer follow the new
    call; the settlement of the latest call runs the per-call callbacks if
    the observer is still waiting for it; no other settlement does. *)
Record Hook : Type := {
  hook_state : State;
  observing : bool;
}.

Variant cart_event : Type :=
| Click (product : Product.t)
| Settled (i : nat) (o : outcome).

Definition hook_step (props : ProductCatalogProps) (h : Hook) (e : cart_event) : Hook :=
  match e with
  | Click product =>
      {| hook_state := exec (handleAddToCart props product) (hook_state h);
         observing :=
           if bool_decide (CartAdd (cart_input product)
                           ∈ trace (handleAddToCart props product) (hook_state h))
           then true else observing h |}
  | Settled i o =>
      match inFlight (hook_state h) !! i with
      | None => h
      | Some _ =>
          let latest := bool_decide (S i = length (inFlight (hook_state h))) in
          {| hook_state :=
               exec (setInFlight (delete i (inFlight (hook_state h))) ;;
                     match o with
                     | Success => useMutation_onSuccess
                     | Failure => skip
                     end ;;
                     if latest && observing h then
                       match o with
                       | Success => mutate_onSuccess
                       | Failure => mutate_onError
                       end
                     else skip)
                 (hook_state h);
             observing := if latest then false else observing h |}
      end
  end.

(** The same events on the component's state alone. *)
Definition cart_step (props : ProductCatalogProps) (s : State) (e : cart_event) : State :=
  match e with
  | Click product => exec (handleAddToCart props product) s
  | Settled i o => exec (settle i o) s
  end.

(** The cards a tree shows. *)
Definition cells_of (b : Body) : list Cell :=
  match b with
  | SearchResults _ cells | CatalogGrid cells => cells
  | NoResults => []
  end.

Definition cards_of (v : View) : list ProductCardProps :=
  match v with
  | Skeletons => []
  | Content body _ => omap cell_child (cells_of body)
  end.

Definition shows_skeletons (v : View) : bool :=
  match v with
  | Skeletons => true
  | Content _ nextPageSkeletons => nextPageSkeletons
  end.

(** ** More of the component *)

(** [typeof v === "string"] *)
Definition is_string (v : jsval) : bool :=
  match v with
  | JStr _ => true
  | _ => false
  end.

(** The products the tree has a cell for when the loading flag is clear:
    the visible search results (with their stock defaulted) if there are
    results, nothing under a query without results, the accumulated
    products otherwise. *)
Definition displayed (s : State) : list Product.t :=
  if decide (0 < length (results s))%nat then
    Product.with_stock <$> filter Product.visible (results s)
  else if negb (String.eqb (query s) "") then []
  else products s.

(** A cell of a product that is not hidden, and the card in it. *)
Definition cell_shows (s : State) (product : Product.t) (cell : Cell) : Prop :=
  cell_key cell = Product.id product
  ∧ ∃ card,
      cell_child cell = Some card
      ∧ key card = Product.id product
      ∧ card_price card = calculateTotalPrice (Product.price product)
      ∧ isAddingToShoppingCart card = isAdding s product.

(** [n] clicks on the add-to-cart button of one card, nothing settling in
    between. *)
Fixpoint clicks (props : ProductCatalogProps) (p : Product.t) (n : nat) : Act unit :=
  match n with
  | O => skip
  | S n' => handleAddToCart props p ;; clicks props p n'
  end.

(** *** The scroll listener (the second [useEffect], lines 88-91)

    The listeners [window] holds for "scroll".  [useCallback] returns the
    same [handleScroll] as long as [isFetchingNextPage] and [hasNextPage]
    (and [fetchNextPage], which the query hook keeps stable) do not change,
    so a [handleScroll] is identified by the two values it closes over.
    [Foreign] stands for the listeners of other code. *)
Inductive listener : Type :=
| HandleScroll (fetching : bool) (more : option bool)
| Foreign (n : nat).

#[global] Instance listener_eq_dec : EqDecision listener.
Proof. solve_decision. Defined.

Definition handleScroll_of (q : InfiniteQuery) : listener :=
  HandleScroll (isFetchingNextPage q) (hasNextPage q).

(** [addEventListener] ignores a listener that is already registered;
    [removeEventListener] drops it. *)
Definition addEventListener (h : listener) (ls : list listener) : list listener :=
  if decide (h ∈ ls) then ls else ls ++ [h].

Definition removeEventListener (h : listener) (ls : list listener) : list listener :=
  filter (λ h', h' ≠ h) ls.

(** The effect and the clean-up it returns. *)
Definition scroll_effect (h : listener) (ls : list listener) : list listener :=
  addEventListener h ls.
Definition scroll_cleanup (h : listener) (ls : list listener) : list listener :=
  removeEventListener h ls.

(** The component over its life: what React does with an effect whose
    dependency is [handleScroll]. *)
Record Mounted : Type := {
  attached : option listener;     (* the [handleScroll] of the last effect run *)
  listeners : list listener;
}.

Variant phase : Type :=
| Commit (q : InfiniteQuery)   (* a render is committed: mount or update *)
| Unmount.

Definition phase_step (m : Mounted) (ph : phase) : Mounted :=
  match ph, attached m with
  | Commit q, None =>
      {| attached := Some (handleScroll_of q);
         listeners := scroll_effect (handleScroll_of q) (listeners m) |}
  | Commit q, Some h =>
      if decide (h = handleScroll_of q) then m
      else
        {| attached := Some (handleScroll_of q);
           listeners :=
             scroll_effect (handleScroll_of q) (scroll_cleanup h (listeners m)) |}
  | Unmount, Some h =>
      {| attached := None; listeners := scroll_cleanup h (listeners m) |}
  | Unmount, None => m
  end.

Definition lifecycle (m : Mounted) (phs : list phase) : Mounted :=
  foldl phase_step m phs.

Definition is_handleScroll (h : listener) : bool :=
  match h with
  | HandleScroll _ _ => true
  | Foreign _ => false
  end.

(** One scroll event: every registered [handleScroll] runs. *)
Definition dispatch_scroll (q : InfiniteQuery) (w : WindowMetrics)
    (ls : list listener) : Act unit :=
  foldr (λ h rest,
           match h with
           | HandleScroll fetching more =>
               handleScroll {| data := data q; hasNextPage := more;
                               isFetchingNextPage := fetching |} w ;; rest
           | Foreign _ => rest
           end) skip ls.

(** ** The page composer ([Home], lines 282-322) *)

Record CarouselCard : Type := {
  carousel_id : string;
  tag : string;
  title : string;
  carousel_image : string;
}.

(** What [Home] returns: [Header], [SearchBar], the carousel when it is
    shown, and [ProductCatalog] with the props it is given. *)
Record HomeView : Type := {
  header_address : option string;
  header_disconnect : callback;
  header_showCart : bool;
  carousel : option (list CarouselCard);
  catalog_props : ProductCatalogProps;
}.

Section Home.
(** [t(key, { ns })] *)
Variable t_ns : string → string → string.

Definition carouselData : list CarouselCard :=
  [ {| carousel_id := "1";
       tag := t_ns "tag_new" "common";
       title := t_ns "welcome_coffee_lover" "common";
       carousel_image := "/images/carousel1.webp" |};
    {| carousel_id := "2";
       tag := t_ns "featured" "common";
       title := t_ns "find_best_coffee" "common";
       carousel_image := "/images/carousel2.webp" |};
    {| carousel_id := "3";
       tag := t_ns "popular" "common";
       title := t_ns "discover_unique_blends" "common";
       carousel_image := "/images/carousel3.webp" |} ].

(** [address] and [disconnect] come from the wallet hooks; [query] is the
    same atom the catalog reads. *)
Definition Home (address : option string) (disconnect : callback) (s : State)
  : HomeView :=
  {| header_address := address;
     header_disconnect := disconnect;
     header_showCart := true;
     carousel :=
       if decide (String.length (query s) ≤ 0)%nat then Some carouselData else None;
     catalog_props := {| isConnected := None; onConnect := None |} |}.
End Home.

(** ** A test bench

    A platform and a few products to run the component on.  [JSON_parse]
    of the bench knows the documents [null] and [{}] and rejects every other
    text; [t] returns its key. *)
Module Bench.
Definition lower_ascii (c : ascii) : ascii :=
  let n := nat_of_ascii c in
  if (65 <=? n)%nat && (n <=? 90)%nat then ascii_of_nat (n + 32) else c.

Fixpoint lower (s : string) : string :=
  match s with
  | EmptyString => EmptyString
  | String c s' => String (lower_ascii c) (lower s')
  end.

#[local] Instance platform : Platform := {|
  JSON_parse s :=
    if String.eqb s "null" then Ok JNull
    else if String.eqb s "{}" then Ok (JObj ∅)
    else Throw SyntaxError;
  toLowerCase := lower;
  t key := key;
  t_count key count := key +:+ ":" +:+ pretty count;
  NEXT_PUBLIC_GATEWAY_URL := Some "https://gateway.test";
|}.

Definition metadata_ipfs : jsval :=
  JObj (<["imageUrl" := JStr "QmYwAPJzv5CZsnA"]>
       (<["region" := JStr "Tarrazu"]>
       (<["farmName" := JStr "La Candelilla"]>
       (<["strength" := JStr "Medium"]> ∅)))).

Definition metadata_http : jsval :=
  JObj (<["imageUrl" := JStr "https://cdn.test/bag.png"]> ∅).

Definition product (id : Z) (hidden : option bool) (nftMetadata : jsval)
  : Product.t :=
  {| Product.id := id; Product.name := "coffee"; Product.price := 10.00;
     Product.stock := None; Product.hidden := hidden;
     Product.nftMetadata := nftMetadata; Product.process := None |}.

Definition guest : ProductCatalogProps :=
  {| isConnected := Some false; onConnect := Some Callback |}.
Definition member : ProductCatalogProps :=
  {| isConnected := Some true; onConnect := Some Callback |}.

Definition empty : State :=
  {| products := []; addingToCart := None; results := [];
     isLoadingResults := false; quantity := 0; query := "";
     inFlight := [] |}.

(** The query before its first page has arrived. *)
Definition first_fetch : InfiniteQuery :=
  {| data := None; hasNextPage := None; isFetchingNextPage := false |}.
End Bench.

(** ** The model on the bench *)

Example render_ipfs_product :
  ∃ card,
    renderProduct (platform := Bench.platform) Bench.member Bench.empty
      (Bench.product 1 None Bench.metadata_ipfs) = Ok (Some card)
    ∧ image card = "https://gateway.test/ipfs/QmYwAPJzv5CZsnA"
    ∧ region card = JStr "Tarrazu"
    ∧ farmName card = JStr "La Candelilla"
    ∧ badgeText card = "strength.medium"
    ∧ card_price card = 15%float
    ∧ trace (onClick card) Bench.empty = [RouterPush "/product/1"].
Proof. eexists. vm_compute. repeat split. Qed.

(** The empty string is falsy: the fallback image. *)
Example imageUrl_empty_string :
  imageUrl (platform := Bench.platform) (JObj (<["imageUrl" := JStr ""]> ∅))
  = Ok "/images/cafe1.webp".
Proof. reflexivity. Qed.

(** A truthy image value that is not a string has no [startsWith]. *)
Example imageUrl_number :
  imageUrl (platform := Bench.platform) (JObj (<["imageUrl" := JNum 42]> ∅))
  = Throw TypeError.
Proof. reflexivity. Qed.

Example syncProducts_normalizes :
  products
    (exec (syncProducts
             {| data := Some [ {| page_products :=
                                    [Bench.product 1 None JNull;
                                     Bench.product 2 (Some true) JNull;
                                     Bench.product 3 (Some false) JNull];
                                  nextCursor := Some 3 |} ];
                hasNextPage := Some true;
                isFetchingNextPage := false |})
       Bench.empty)
  = [Product.normalize (Bench.product 1 None JNull);
     Product.normalize (Bench.product 3 (Some false) JNull)].
Proof. reflexivity. Qed.

(** * Properties *)

(** ** The displayed price *)

Module Binary64Facts.
Import Binary64.



End Binary64Facts.



(** Nor is overflow the only case: at the price 3 / 100000 the two
    roundings of the fee leave the total one unit in the last place below
    [p + p * 0.5]. *)
Example calculateTotalPrice_rounds :
  calculateTotalPrice (3 / 100000)
  = PrimFloat.next_down (3 / 100000 + 3 / 100000 * 0.5)%float.
Proof. reflexivity. Qed.

(** ** Clearing the search *)

Lemma clearSearch_run (s : State) :
  clearSearch s =
    (tt,
     {| products := products s; addingToCart := addingToCart s;
        results := []; isLoadingResults := false; quantity := 0; query := "";
        inFlight := inFlight s |},
     []).
Proof. reflexivity. Qed.

(** C2. From any state of the shared search atoms, [clearSearch] ends with
    query = "", result count = 0, results = [] and loading = false, all
    four together. *)
Theorem clearSearch_resets (s : State) :
  query (exec clearSearch s) = ""
  ∧ quantity (exec clearSearch s) = 0
  ∧ results (exec clearSearch s) = []
  ∧ isLoadingResults (exec clearSearch s) = false.
Proof. unfold exec. rewrite clearSearch_run. simpl. auto. Qed.

(** ** Hidden products *)

Lemma elem_of_allProducts (pages : list Page) (q : Product.t) :
  q ∈ allProducts pages ↔
  ∃ page q0, page ∈ pages ∧ q0 ∈ page_products page
             ∧ Product.visible q0 ∧ q = Product.normalize q0.
Proof.
  unfold allProducts. rewrite list_elem_of_bind. split.
  - intros (page & Hq & Hpage).
    apply list_elem_of_fmap in Hq as (q0 & -> & Hq0).
    apply list_elem_of_filter in Hq0 as [Hvis Hin]. eauto 6.
  - intros (page & q0 & Hpage & Hin & Hvis & ->).
    exists page. split; [|exact Hpage].
    apply list_elem_of_fmap. exists q0. split; [reflexivity|].
    apply list_elem_of_filter. auto.
Qed.

Lemma allProducts_visible (pages : list Page) :
  Forall Product.visible (allProducts pages).
Proof.
  apply Forall_forall. intros q Hq.
  apply elem_of_allProducts in Hq as (page & q0 & _ & _ & Hvis & ->).
  exact Hvis.
Qed.

Lemma filter_visible_drop (p : Product.t) (before after : list Product.t) :
  Product.hidden p = Some true →
  filter Product.visible (before ++ p :: after)
  = filter Product.visible (before ++ after).
Proof.
  intros Hp. rewrite !filter_app, filter_cons.
  destruct (decide (Product.visible p)) as [Hvis|_]; [|reflexivity].
  destruct (Hvis Hp).
Qed.

Section Hidden.
Context {platform : Platform}.
Variable props : ProductCatalogProps.

Lemma renderProduct_hidden (s : State) (p : Product.t) :
  Product.hidden p = Some true → renderProduct props s p = Ok None.
Proof.
  intros Hp. unfold renderProduct.
  destruct (decide (Product.hidden p = Some true)); [reflexivity|contradiction].
Qed.

(** C3. A product with [hidden = true] gets no card on any path: the page
    accumulation and the search-results grid give the same output with
    the product as without it, no accumulated product is hidden, and
    [renderProduct] returns [null] for it. *)
Theorem hidden_product_gets_no_card (p : Product.t) :
  Product.hidden p = Some true →
  (∀ pages1 pages2 before after cursor,
     allProducts
       (pages1 ++ {| page_products := before ++ p :: after;
                     nextCursor := cursor |} :: pages2)
     = allProducts
         (pages1 ++ {| page_products := before ++ after;
                       nextCursor := cursor |} :: pages2))
  ∧ (∀ pages, Product.normalize p ∉ allProducts pages)
  ∧ (∀ s before after,
       results s = before ++ p :: after →
       searchCells props s
       = searchCells props (exec (setSearchResults (before ++ after)) s))
  ∧ (∀ s, renderProduct props s p = Ok None)
  ∧ (∀ s, renderProduct props s (Product.with_stock p) = Ok None).
Proof.
  intros Hp. repeat split.
  - intros pages1 pages2 before after cursor. unfold allProducts.
    rewrite !bind_app, !bind_cons. simpl.
    rewrite (filter_visible_drop p before after Hp). reflexivity.
  - intros pages Hin.
    pose proof (allProducts_visible pages) as Hall.
    rewrite Forall_forall in Hall. apply (Hall _ Hin). exact Hp.
  - intros s before after Hres. unfold searchCells. simpl.
    rewrite Hres, (filter_visible_drop p before after Hp). reflexivity.
  - intros s. apply renderProduct_hidden, Hp.
  - intros s. apply renderProduct_hidden. exact Hp.
Qed.
End Hidden.

Lemma hidden_product_gets_no_card_witness :
  let p := Bench.product 7 (Some true) Bench.metadata_ipfs in
  Product.hidden p = Some true
  ∧ renderProduct (platform := Bench.platform) Bench.guest Bench.empty p = Ok None
  ∧ allProducts [ {| page_products := [p]; nextCursor := None |} ] = [].
Proof.
  split; [reflexivity|]. split.
  - apply (hidden_product_gets_no_card (platform := Bench.platform) Bench.guest
             (Bench.product 7 (Some true) Bench.metadata_ipfs) eq_refl).
  - reflexivity.
Defined.

(** ** The display image *)

Section Image.
Context {platform : Platform}.
Variable props : ProductCatalogProps.

Lemma imageUrl_ipfs (metadata : jsval) (cid : string) :
  opt_get metadata "imageUrl" = JStr cid →
  String.prefix "Qm" cid = true →
  imageUrl metadata
  = Ok (template NEXT_PUBLIC_GATEWAY_URL +:+ "/ipfs/" +:+ cid).
Proof.
  intros Hv Hqm. unfold imageUrl. rewrite Hv, Hqm.
  destruct cid as [|c cid]; [discriminate Hqm|reflexivity].
Qed.

Lemma imageUrl_verbatim (metadata : jsval) (url : string) :
  opt_get metadata "imageUrl" = JStr url →
  url ≠ "" →
  String.prefix "Qm" url = false →
  imageUrl metadata = Ok url.
Proof.
  intros Hv Hne Hqm. unfold imageUrl. rewrite Hv, Hqm.
  destruct url as [|c url]; [contradiction|reflexivity].
Qed.

Lemma imageUrl_fallback (metadata : jsval) :
  nullish (opt_get metadata "imageUrl") = true →
  imageUrl metadata = Ok "/images/cafe1.webp".
Proof.
  intros Hv. unfold imageUrl.
  destruct (opt_get metadata "imageUrl"); try discriminate Hv; reflexivity.
Qed.

(** What a card that was rendered was built from. *)
Lemma renderProduct_card (s : State) (p : Product.t) (card : ProductCardProps) :
  renderProduct props s p = Ok (Some card) →
  let metadata := parseMetadata (Product.nftMetadata p) in
  Product.hidden p ≠ Some true
  ∧ imageUrl metadata = Ok (image card)
  ∧ region card = coalesce (opt_get metadata "region") (JStr "")
  ∧ farmName card = coalesce (opt_get metadata "farmName") (JStr "")
  ∧ card_price card = calculateTotalPrice (Product.price p)
  ∧ card_stock card = Product.stock p
  ∧ key card = Product.id p
  ∧ isAddingToShoppingCart card = isAdding s p.
Proof.
  unfold renderProduct.
  destruct (decide (Product.hidden p = Some true)) as [|Hvis]; [discriminate|].
  destruct (imageUrl (parseMetadata (Product.nftMetadata p))) as [url|e];
    [|discriminate].
  destruct (strength (parseMetadata (Product.nftMetadata p))) as [lower|e];
    [|discriminate].
  simpl. intros [= <-]. simpl. auto 10.
Qed.

(** C4. The image of a rendered card follows the metadata image value: a
    string that starts with "Qm" gives the gateway base, "/ipfs/" and the
    value; any other non-empty string is used as it is; no image value
    gives "/images/cafe1.webp". *)
Theorem card_image_three_cases (s : State) (p : Product.t) (card : ProductCardProps) :
  renderProduct props s p = Ok (Some card) →
  let v := opt_get (parseMetadata (Product.nftMetadata p)) "imageUrl" in
  (∀ cid gatewayBase,
     NEXT_PUBLIC_GATEWAY_URL = Some gatewayBase →
     v = JStr cid → String.prefix "Qm" cid = true →
     image card = gatewayBase +:+ "/ipfs/" +:+ cid)
  ∧ (∀ url,
       v = JStr url → url ≠ "" → String.prefix "Qm" url = false →
       image card = url)
  ∧ (nullish v = true → image card = "/images/cafe1.webp").
Proof.
  intros Hcard v.
  apply renderProduct_card in Hcard as (_ & Himg & _).
  repeat split.
  - intros cid gatewayBase Hgw Hv Hqm.
    rewrite (imageUrl_ipfs _ cid Hv Hqm), Hgw in Himg.
    injection Himg as <-. reflexivity.
  - intros url Hv Hne Hqm.
    rewrite (imageUrl_verbatim _ url Hv Hne Hqm) in Himg.
    injection Himg as <-. reflexivity.
  - intros Hv. rewrite (imageUrl_fallback _ Hv) in Himg.
    injection Himg as <-. reflexivity.
Qed.
End Image.

Lemma card_image_three_cases_witness :
  ∃ card,
    renderProduct (platform := Bench.platform) Bench.guest Bench.empty
      (Bench.product 1 None Bench.metadata_ipfs) = Ok (Some card)
    ∧ image card = "https://gateway.test/ipfs/QmYwAPJzv5CZsnA".
Proof.
  eexists. split; [reflexivity|].
  refine (proj1 (card_image_three_cases (platform := Bench.platform) Bench.guest
                   Bench.empty (Bench.product 1 None Bench.metadata_ipfs) _ eq_refl)
            "QmYwAPJzv5CZsnA" "https://gateway.test" eq_refl _ eq_refl).
  vm_compute. reflexivity.
Defined.

(** ** Infinite scroll *)

Lemma handleScroll_run (q : InfiniteQuery) (w : WindowMetrics) (s : State) :
  handleScroll q w s
  = (tt, s,
     if Qle_bool (offsetHeight w - 100) (innerHeight w + scrollY w)
        && negb (isFetchingNextPage q) && default false (hasNextPage q)
     then [FetchNextPage] else []).
Proof.
  unfold handleScroll.
  destruct (Qle_bool _ _ && negb _ && default false _); reflexivity.
Qed.

Lemma handleScroll_requests (q : InfiniteQuery) (w : WindowMetrics) (s : State) :
  FetchNextPage ∈ trace (handleScroll q w) s ↔
  (offsetHeight w - 100 <= innerHeight w + scrollY w)%Q
  ∧ isFetchingNextPage q = false
  ∧ hasNextPage q = Some true.
Proof.
  unfold trace. rewrite handleScroll_run. simpl.
  rewrite <- Qle_bool_iff.
  destruct (Qle_bool _ _), (isFetchingNextPage q), (hasNextPage q) as [[]|];
    simpl; split;
    try (intros Hin; apply elem_of_nil in Hin; destruct Hin);
    try (intros (? & ? & ?); discriminate);
    try (intros _; auto; apply list_elem_of_here).
Qed.

Lemma handleScroll_pending (q : InfiniteQuery) (w : WindowMetrics) (s : State) :
  isFetchingNextPage q = true → handleScroll q w s = (tt, s, []).
Proof.
  intros Hq. rewrite handleScroll_run, Hq, andb_false_r. reflexivity.
Qed.

Lemma scrollAll_pending (q : InfiniteQuery) (ws : list WindowMetrics) (s : State) :
  isFetchingNextPage q = true → scrollAll q ws s = (tt, s, []).
Proof.
  intros Hq. induction ws as [|w ws IH]; [reflexivity|].
  simpl. unfold mbind, Act_bind.
  rewrite (handleScroll_pending q w s Hq), IH. reflexivity.
Qed.

Lemma pager_step_inv (s : State) (pg : Pager) (e : event) :
  pager_inv pg → pager_inv (pager_step s pg e).
Proof.
  unfold pager_inv. intros Hinv. destruct e as [w|page|]; simpl.
  - case_bool_decide as Hreq; [|exact Hinv].
    apply handleScroll_requests in Hreq as (_ & Hidle & _).
    rewrite Hidle in Hinv. simpl. rewrite Hinv. reflexivity.
  - rewrite Hinv. destruct (isFetchingNextPage (pager_query pg)); reflexivity.
  - rewrite Hinv. destruct (isFetchingNextPage (pager_query pg)); reflexivity.
Qed.

Lemma pager_run_inv (s : State) (es : list event) : ∀ pg,
  pager_inv pg → pager_inv (pager_run s pg es).
Proof.
  induction es as [|e es IH]; intros pg Hinv; [exact Hinv|].
  apply IH, pager_step_inv, Hinv.
Qed.

(** C5. The scroll handler asks for the next page exactly when the
    viewport is within 100 pixels of the bottom of the document, no page
    fetch is in flight and a next page is known to exist; so while a fetch
    is pending no run of scroll events starts a request, and from an idle
    hook at most one page request is ever out. *)
Theorem handleScroll_guard :
  (∀ q w s,
     handleScroll q w s = (tt, s, [FetchNextPage])
     ∨ handleScroll q w s = (tt, s, []))
  ∧ (∀ q w s,
       FetchNextPage ∈ trace (handleScroll q w) s ↔
       (offsetHeight w - 100 <= innerHeight w + scrollY w)%Q
       ∧ isFetchingNextPage q = false
       ∧ hasNextPage q = Some true)
  ∧ (∀ q ws s, isFetchingNextPage q = true → scrollAll q ws s = (tt, s, []))
  ∧ (∀ s pg es, idle pg → (requests (pager_run s pg es) ≤ 1)%nat).
Proof.
  split; [|split; [|split]].
  - intros q w s. rewrite handleScroll_run.
    destruct (_ && _ && _); auto.
  - apply handleScroll_requests.
  - intros q ws s. apply scrollAll_pending.
  - intros s pg es [Hreq Hidle].
    assert (pager_inv pg) as Hinv by (unfold pager_inv; rewrite Hreq, Hidle; reflexivity).
    apply (pager_run_inv s es) in Hinv. unfold pager_inv in Hinv.
    rewrite Hinv. clear Hreq Hidle Hinv.
    destruct (isFetchingNextPage (pager_query (pager_run s pg es))); lia.
Qed.

(** ** Adding to the cart *)

Section Cart.
Variable props : ProductCatalogProps.

Lemma handleAddToCart_run (p : Product.t) (s : State) :
  handleAddToCart props p s
  = if negb (default false (isConnected props))
       && bool_decide (is_Some (onConnect props))
    then (tt, s, [CallOnConnect])
    else (tt,
          {| products := products s;
             addingToCart := Some (Product.id p);
             results := results s;
             isLoadingResults := isLoadingResults s;
             quantity := quantity s;
             query := query s;
             inFlight := inFlight s ++ [cart_input p] |},
          [CartAdd (cart_input p)]).
Proof.
  unfold handleAddToCart.
  destruct (negb _ && bool_decide _); reflexivity.
Qed.

Lemma handleAddToCart_mutates (p : Product.t) (s : State) :
  isConnected props = Some true ∨ onConnect props = None →
  handleAddToCart props p s
  = (tt,
     {| products := products s;
        addingToCart := Some (Product.id p);
        results := results s;
        isLoadingResults := isLoadingResults s;
        quantity := quantity s;
        query := query s;
        inFlight := inFlight s ++ [cart_input p] |},
     [CartAdd (cart_input p)]).
Proof.
  intros Hcase. rewrite handleAddToCart_run.
  destruct Hcase as [-> | ->]; [reflexivity|].
  rewrite andb_comm. reflexivity.
Qed.

(** C6. A click on add-to-cart while the wallet is not connected and a
    connect callback was supplied calls the callback and does nothing
    else: no mutation, no marker.  In every other case (connected, or no
    callback) the marker is set and the mutation is issued. *)
Theorem handleAddToCart_connect_gate (p : Product.t) (s : State) :
  (isConnected props ≠ Some true ∧ is_Some (onConnect props) →
     handleAddToCart props p s = (tt, s, [CallOnConnect]))
  ∧ (isConnected props = Some true ∨ onConnect props = None →
       trace (handleAddToCart props p) s = [CartAdd (cart_input p)]
       ∧ addingToCart (exec (handleAddToCart props p) s) = Some (Product.id p)
       ∧ inFlight (exec (handleAddToCart props p) s)
         = inFlight s ++ [cart_input p]).
Proof.
  split.
  - intros [Hdis Hcb]. rewrite handleAddToCart_run.
    rewrite (bool_decide_eq_true_2 _ Hcb).
    destruct (isConnected props) as [[]|]; [contradiction|reflexivity..].
  - intros Hcase. unfold trace, exec.
    rewrite (handleAddToCart_mutates p s Hcase). simpl. auto.
Qed.
End Cart.

Lemma settle_run (i : nat) (o : outcome) (s : State) (m : AddToCart.input) :
  inFlight s !! i = Some m →
  settle i o s
  = (tt,
     {| products := products s;
        addingToCart :=
          if decide (S i = length (inFlight s)) then None else addingToCart s;
        results := results s;
        isLoadingResults := isLoadingResults s;
        quantity := quantity s;
        query := query s;
        inFlight := delete i (inFlight s) |},
     match o with Success => [RefetchCart] | Failure => [] end).
Proof.
  intros Hm. unfold settle, mbind, Act_bind, getState. rewrite Hm.
  destruct (decide (S i = length (inFlight s))); destruct o; reflexivity.
Qed.

(** C7, as the hook has it.  When the mutation of the latest add-to-cart
    call settles, the "adding" marker is set to [null], on success and on
    error alike; a mutation that a later call has superseded leaves the
    marker as it is when it settles.  The cart is refetched when a mutation
    settles with success, whichever call it is, and never on error. *)
Theorem settle_clears_marker (i : nat) (o : outcome) (s : State) (m : AddToCart.input) :
  inFlight s !! i = Some m →
  (S i = length (inFlight s) → addingToCart (exec (settle i o) s) = None)
  ∧ (S i ≠ length (inFlight s) →
     addingToCart (exec (settle i o) s) = addingToCart s)
  ∧ trace (settle i o) s
    = match o with Success => [RefetchCart] | Failure => [] end
  ∧ (RefetchCart ∈ trace (settle i o) s ↔ o = Success).
Proof.
  intros Hm. unfold exec, trace. rewrite (settle_run i o s m Hm). simpl.
  split; [|split; [|split; [reflexivity|]]].
  - intros Hlast. destruct (decide (S i = length (inFlight s))); [reflexivity|contradiction].
  - intros Hold. destruct (decide (S i = length (inFlight s))); [contradiction|reflexivity].
  - destruct o; split; try reflexivity.
    + intros _. apply list_elem_of_here.
    + intros Hin. apply elem_of_nil in Hin. destruct Hin.
    + discriminate.
Qed.

Lemma settle_clears_marker_witness :
  let s := exec (handleAddToCart Bench.member (Bench.product 3 None JNull)) Bench.empty in
  addingToCart s = Some 3
  ∧ addingToCart (exec (settle 0 Failure) s) = None
  ∧ trace (settle 0 Failure) s = [].
Proof.
  split; [reflexivity|].
  pose proof (settle_clears_marker 0 Failure
                (exec (handleAddToCart Bench.member (Bench.product 3 None JNull))
                   Bench.empty)
                (cart_input (Bench.product 3 None JNull)) eq_refl) as (Hmark & _ & Htrace & _).
  exact (conj (Hmark eq_refl) Htrace).
Defined.

(** C7, as stated, fails: after add-to-cart on product 1 and then on
    product 2, the first mutation settling does not run its per-call
    callbacks, and the marker stays at 2. *)
Lemma superseded_mutation_keeps_marker :
  ¬ (∀ (i : nat) (o : outcome) (s : State) (m : AddToCart.input),
       inFlight s !! i = Some m →
       addingToCart (exec (settle i o) s) = None
       ∧ (RefetchCart ∈ trace (settle i o) s ↔ o = Success)).
Proof.
  intros Hclaim.
  destruct (Hclaim 0%nat Success
              (exec (handleAddToCart Bench.member (Bench.product 2 None JNull))
                 (exec (handleAddToCart Bench.member (Bench.product 1 None JNull))
                    Bench.empty))
              (cart_input (Bench.product 1 None JNull)) eq_refl) as [Hmarker _].
  vm_compute in Hmarker. discriminate Hmarker.
Qed.

(** The marker after that settlement, and after the second one. *)
Example two_in_flight :
  let s := exec (handleAddToCart Bench.member (Bench.product 2 None JNull))
             (exec (handleAddToCart Bench.member (Bench.product 1 None JNull))
                Bench.empty) in
  addingToCart s = Some 2
  ∧ addingToCart (exec (settle 0 Success) s) = Some 2
  ∧ trace (settle 0 Success) s = [RefetchCart]
  ∧ addingToCart (exec (settle 0 Failure) (exec (settle 0 Success) s)) = None
  ∧ trace (settle 0 Failure) (exec (settle 0 Success) s) = [].
Proof. repeat split. Qed.

(** The model's [settle] and the hook with its observer agree on every run
    that starts with the observer idle and the marker clear. *)
Lemma hook_step_agrees (props : ProductCatalogProps) (h : Hook) (e : cart_event) :
  (observing h = false → addingToCart (hook_state h) = None) →
  hook_state (hook_step props h e) = cart_step props (hook_state h) e
  ∧ (observing (hook_step props h e) = false →
     addingToCart (hook_state (hook_step props h e)) = None).
Proof.
  intros Hinv. destruct h as [s obs]. simpl in *. destruct e as [product|i o]; simpl.
  - split; [reflexivity|].
    unfold trace, exec. rewrite handleAddToCart_run.
    destruct (negb _ && bool_decide _); simpl.
    + exact Hinv.
    + rewrite bool_decide_eq_true_2 by apply list_elem_of_here. discriminate.
  - destruct (inFlight s !! i) as [m|] eqn:Hm; simpl.
    + unfold exec. rewrite (settle_run i o s m Hm).
      unfold mbind, Act_bind, getState. simpl.
      destruct (decide (S i = length (inFlight s))) as [Hlast|Hold].
      * rewrite (bool_decide_eq_true_2 _ Hlast). simpl.
        destruct obs; simpl.
        -- destruct o; simpl; auto.
        -- rewrite (Hinv eq_refl). destruct o; simpl; auto.
      * rewrite (bool_decide_eq_false_2 _ Hold). simpl.
        destruct o; simpl; auto.
    + unfold exec, settle, mbind, Act_bind, getState. rewrite Hm. simpl. auto.
Qed.

Lemma hook_run_agrees (props : ProductCatalogProps) (es : list cart_event) : ∀ h,
  (observing h = false → addingToCart (hook_state h) = None) →
  hook_state (foldl (hook_step props) h es)
  = foldl (cart_step props) (hook_state h) es.
Proof.
  induction es as [|e es IH]; intros h Hinv; [reflexivity|].
  simpl. destruct (hook_step_agrees props h e Hinv) as [Hstate Hinv'].
  rewrite (IH _ Hinv'), Hstate. reflexivity.
Qed.

(** C10. The "adding" marker is one slot: at most one product id is
    reported as adding, and a second add-to-cart that starts while the
    first mutation is in flight takes the slot, so the first product is no
    longer reported as adding although its mutation has not settled. *)
Theorem addingToCart_single_slot :
  (∀ s p1 p2,
     isAdding s p1 = true → isAdding s p2 = true →
     Product.id p1 = Product.id p2)
  ∧ (∀ props s p1 p2,
       isConnected props = Some true ∨ onConnect props = None →
       Product.id p1 ≠ Product.id p2 →
       let s' := exec (handleAddToCart props p1 ;; handleAddToCart props p2) s in
       addingToCart s' = Some (Product.id p2)
       ∧ isAdding s' p1 = false
       ∧ isAdding s' p2 = true
       ∧ inFlight s' = inFlight s ++ [cart_input p1; cart_input p2]).
Proof.
  split.
  - intros s p1 p2 H1 H2. unfold isAdding in *.
    apply bool_decide_eq_true_1 in H1, H2. congruence.
  - intros props s p1 p2 Hcase Hne s'.
    assert (s' = {| products := products s;
                    addingToCart := Some (Product.id p2);
                    results := results s;
                    isLoadingResults := isLoadingResults s;
                    quantity := quantity s;
                    query := query s;
                    inFlight := inFlight s ++ [cart_input p1; cart_input p2] |})
      as ->.
    { subst s'. unfold exec, mbind, Act_bind.
      rewrite (handleAddToCart_mutates props p1 s Hcase).
      rewrite (handleAddToCart_mutates props p2 _ Hcase). simpl.
      rewrite <- app_assoc. reflexivity. }
    unfold isAdding. simpl. split; [reflexivity|]. split; [|split; [|reflexivity]].
    + apply bool_decide_eq_false_2. congruence.
    + apply bool_decide_eq_true_2. reflexivity.
Qed.

(** ** Malformed metadata *)

Section Metadata.
Context {platform : Platform}.
Variable props : ProductCatalogProps.

Lemma parseMetadata_malformed (text : string) (e : exn) :
  JSON_parse text = Throw e → parseMetadata (JStr text) = JNull.
Proof. intros Hparse. unfold parseMetadata. rewrite Hparse. reflexivity. Qed.

Lemma renderProduct_no_metadata (s : State) (p : Product.t) (v : jsval) :
  parseMetadata v = JNull ∨ parseMetadata v = JUndefined →
  renderProduct props s (Product.with_nftMetadata p v)
  = if decide (Product.hidden p = Some true) then Ok None
    else Ok (Some (bare_card props s p)).
Proof.
  intros Hv. unfold renderProduct. simpl.
  destruct (decide (Product.hidden p = Some true)); [reflexivity|].
  destruct Hv as [-> | ->]; reflexivity.
Qed.

(** C8. A product whose [nftMetadata] is a string that does not parse as
    JSON renders without an exception: the parsed metadata is [null],
    region and farm name are the empty string, the image is the fallback,
    and the result is the one of the same product with no metadata. *)
Theorem malformed_metadata_is_swallowed
    (s : State) (p : Product.t) (text : string) (e : exn) :
  JSON_parse text = Throw e →
  let broken := Product.with_nftMetadata p (JStr text) in
  parseMetadata (Product.nftMetadata broken) = JNull
  ∧ (∀ e', renderProduct props s broken ≠ Throw e')
  ∧ renderProduct props s broken
    = renderProduct props s (Product.with_nftMetadata p JNull)
  ∧ renderProduct props s broken
    = renderProduct props s (Product.with_nftMetadata p JUndefined)
  ∧ (Product.hidden p ≠ Some true →
     ∃ card,
       renderProduct props s broken = Ok (Some card)
       ∧ region card = JStr ""
       ∧ farmName card = JStr ""
       ∧ image card = "/images/cafe1.webp").
Proof.
  intros Hparse broken. subst broken.
  pose proof (parseMetadata_malformed text e Hparse) as Hnull.
  rewrite (renderProduct_no_metadata s p (JStr text) (or_introl Hnull)).
  rewrite (renderProduct_no_metadata s p JNull (or_introl eq_refl)).
  rewrite (renderProduct_no_metadata s p JUndefined (or_intror eq_refl)).
  split; [exact Hnull|]. split; [|split; [reflexivity|split; [reflexivity|]]].
  - intros e'. destruct (decide (Product.hidden p = Some true)); discriminate.
  - intros Hvis. exists (bare_card props s p).
    destruct (decide (Product.hidden p = Some true)); [contradiction|].
    auto.
Qed.
End Metadata.

Lemma malformed_metadata_is_swallowed_witness :
  JSON_parse (Platform := Bench.platform) "{imageUrl: QmYwAPJzv5CZsnA" = Throw SyntaxError
  ∧ ∃ card,
      renderProduct (platform := Bench.platform) Bench.guest Bench.empty
        (Bench.product 4 None (JStr "{imageUrl: QmYwAPJzv5CZsnA")) = Ok (Some card)
      ∧ image card = "/images/cafe1.webp".
Proof.
  split; [reflexivity|].
  destruct (malformed_metadata_is_swallowed (platform := Bench.platform) Bench.guest
              Bench.empty (Bench.product 4 None JNull)
              "{imageUrl: QmYwAPJzv5CZsnA" SyntaxError eq_refl)
    as (_ & _ & _ & _ & Hcard).
  destruct (Hcard ltac:(discriminate)) as (card & Hrender & _ & _ & Himage).
  exists card. split; [exact Hrender|exact Himage].
Defined.

(** ** Skeletons *)

Section Skeletons.
Context {platform : Platform}.
Variable props : ProductCatalogProps.

Lemma render_loading (q : InfiniteQuery) (s : State) :
  isLoadingResults s = true → render props q s = Ok Skeletons.
Proof. intros Hload. unfold render. rewrite Hload. reflexivity. Qed.

(** Of the query hook, [render] reads [isFetchingNextPage] only. *)
Lemma render_reads_isFetchingNextPage (q q' : InfiniteQuery) (s : State) :
  isFetchingNextPage q = isFetchingNextPage q' →
  render props q s = render props q' s.
Proof. intros Heq. unfold render. rewrite Heq. reflexivity. Qed.

Lemma render_not_loading (q : InfiniteQuery) (s : State) (v : View) :
  isLoadingResults s = false →
  render props q s = Ok v →
  ∃ body, v = Content body (isFetchingNextPage q).
Proof.
  intros Hload. unfold render. rewrite Hload.
  destruct (decide (0 < length (results s))%nat) as [Hres|Hres].
  - destruct (searchCells props s) as [cells|e]; simpl; [|discriminate].
    intros [= <-]. eauto.
  - destruct (negb (String.eqb (query s) "")); simpl.
    + intros [= <-]. eauto.
    + destruct (catalogCells props s) as [cells|e]; simpl; [|discriminate].
      intros [= <-]. eauto.
Qed.

(** C9, as the component has it.  While the shared "loading" flag is set
    the tree is the skeleton grid and holds no product card.  The first
    page fetch is not consulted: of the query hook the tree depends on
    [isFetchingNextPage] alone, and with the flag clear the item branch is
    rendered, with skeletons below it exactly while a next page is being
    fetched. *)
Theorem loading_flag_shows_skeletons :
  (∀ q s,
     isLoadingResults s = true →
     render props q s = Ok Skeletons
     ∧ shows_skeletons Skeletons = true
     ∧ cards_of Skeletons = [])
  ∧ (∀ q q' s,
       isFetchingNextPage q = isFetchingNextPage q' →
       render props q s = render props q' s)
  ∧ (∀ q s v,
       isLoadingResults s = false →
       render props q s = Ok v →
       v ≠ Skeletons ∧ shows_skeletons v = isFetchingNextPage q).
Proof.
  split; [|split].
  - intros q s Hload. rewrite (render_loading q s Hload). auto.
  - apply render_reads_isFetchingNextPage.
  - intros q s v Hload Hrender.
    destruct (render_not_loading q s v Hload Hrender) as (body & ->).
    split; [discriminate|reflexivity].
Qed.
End Skeletons.

(** C9, as stated, fails: during the first page fetch ([data] still
    undefined) with the loading flag clear and one search result, the
    component renders that result's card and no skeleton. *)
Lemma first_fetch_renders_cards :
  ¬ (∀ (platform : Platform) (props : ProductCatalogProps)
       (q : InfiniteQuery) (s : State),
       data q = None ∨ isLoadingResults s = true →
       ∃ v, render props q s = Ok v
            ∧ shows_skeletons v = true
            ∧ cards_of v = []).
Proof.
  intros Hclaim.
  destruct (Hclaim Bench.platform Bench.guest Bench.first_fetch
              (exec (setSearchResults [Bench.product 1 None Bench.metadata_http])
                 Bench.empty)
              (or_introl eq_refl))
    as (v & Hrender & Hskeleton & _).
  vm_compute in Hrender. injection Hrender as <-.
  discriminate Hskeleton.
Qed.

(** The tree of that render: one search-result card, no skeleton. *)
Example first_fetch_view :
  ∃ header cell card,
    render (platform := Bench.platform) Bench.guest Bench.first_fetch
      (exec (setSearchResults [Bench.product 1 None Bench.metadata_http])
         Bench.empty)
    = Ok (Content (SearchResults header [cell]) false)
    ∧ cell_child cell = Some card
    ∧ image card = "https://cdn.test/bag.png".
Proof. do 3 eexists. vm_compute. repeat split. Qed.

(** With no search result either, the same render is the empty catalog
    grid, again without a skeleton. *)
Example first_fetch_empty_grid :
  render (platform := Bench.platform) Bench.guest Bench.first_fetch Bench.empty
  = Ok (Content (CatalogGrid []) false).
Proof. reflexivity. Qed.

(** * More properties of the component *)

(** ** Page accumulation *)

Lemma allProducts_app (pages1 pages2 : list Page) :
  allProducts (pages1 ++ pages2) = allProducts pages1 ++ allProducts pages2.
Proof. unfold allProducts. apply bind_app. Qed.

Lemma allProducts_page (page : Page) :
  allProducts [page]
  = Product.normalize <$> filter Product.visible (page_products page).
Proof. unfold allProducts. simpl. apply app_nil_r. Qed.

Lemma syncProducts_run (q : InfiniteQuery) (pages : list Page) (s : State) :
  data q = Some pages →
  syncProducts q s
  = (tt,
     {| products := allProducts pages; addingToCart := addingToCart s;
        results := results s; isLoadingResults := isLoadingResults s;
        quantity := quantity s; query := query s; inFlight := inFlight s |},
     []).
Proof. intros Hdata. unfold syncProducts. rewrite Hdata. reflexivity. Qed.

(** X1. When a further page arrives, the products accumulated so far keep
    their places and the visible products of the new page, normalized, are
    appended after them in the page's order. *)
Theorem next_page_is_appended
    (q q' : InfiniteQuery) (pages : list Page) (page : Page) (s : State) :
  data q = Some pages →
  data q' = Some (pages ++ [page]) →
  products (exec (syncProducts q') (exec (syncProducts q) s))
  = products (exec (syncProducts q) s)
    ++ (Product.normalize <$> filter Product.visible (page_products page)).
Proof.
  intros Hq Hq'. unfold exec.
  rewrite (syncProducts_run q pages s Hq).
  rewrite (syncProducts_run q' (pages ++ [page]) _ Hq'). simpl.
  rewrite allProducts_app, allProducts_page. reflexivity.
Qed.

Lemma next_page_is_appended_witness :
  let page1 := {| page_products := [Bench.product 1 None JNull;
                                    Bench.product 2 (Some true) JNull];
                  nextCursor := Some 2 |} in
  let page2 := {| page_products := [Bench.product 3 (Some false) JNull];
                  nextCursor := None |} in
  let q := {| data := Some [page1]; hasNextPage := Some true;
              isFetchingNextPage := false |} in
  let q' := {| data := Some ([page1] ++ [page2]); hasNextPage := Some false;
               isFetchingNextPage := false |} in
  products (exec (syncProducts q') (exec (syncProducts q) Bench.empty))
  = products (exec (syncProducts q) Bench.empty)
    ++ [Product.normalize (Bench.product 3 (Some false) JNull)].
Proof.
  intros page1 page2 q q'.
  exact (next_page_is_appended q q' [page1] page2 Bench.empty eq_refl eq_refl).
Defined.

Lemma length_allProducts (pages : list Page) :
  (length (allProducts pages) ≤ length (pages ≫= page_products))%nat.
Proof.
  induction pages as [|page pages IH]; [reflexivity|].
  change (page :: pages) with ([page] ++ pages).
  rewrite allProducts_app, bind_app, !length_app, allProducts_page, length_fmap.
  simpl. rewrite app_nil_r.
  pose proof (length_filter Product.visible (page_products page)). lia.
Qed.

(** X2. The accumulated list holds nothing the pages did not deliver: it
    is no longer than the pages together, and each of its products is a
    delivered, not hidden product with the same id, name, price, hidden flag
    and metadata, its stock defined (0 where the page gave none) and its
    process "Natural". *)
Theorem accumulated_products_are_normalized :
  (∀ pages, (length (allProducts pages) ≤ length (pages ≫= page_products))%nat)
  ∧ (∀ pages q,
       q ∈ allProducts pages →
       ∃ page q0,
         page ∈ pages ∧ q0 ∈ page_products page
         ∧ Product.hidden q0 ≠ Some true
         ∧ Product.id q = Product.id q0
         ∧ Product.name q = Product.name q0
         ∧ Product.price q = Product.price q0
         ∧ Product.hidden q = Product.hidden q0
         ∧ Product.nftMetadata q = Product.nftMetadata q0
         ∧ Product.stock q = Some (default 0 (Product.stock q0))
         ∧ Product.process q = Some "Natural").
Proof.
  split; [exact length_allProducts|].
  intros pages q Hq.
  apply elem_of_allProducts in Hq as (page & q0 & Hpage & Hq0 & Hvis & ->).
  exists page, q0. simpl. auto 12.
Qed.

(** X3. The effect on [data] does nothing while [data] is undefined;
    otherwise it replaces the whole list, whatever was shown before, touches
    no other state, calls no collaborator, and running it again on the same
    data changes nothing. *)
Theorem syncProducts_replaces (q : InfiniteQuery) (s : State) :
  (data q = None → syncProducts q s = (tt, s, []))
  ∧ (∀ pages, data q = Some pages →
       products (exec (syncProducts q) s) = allProducts pages
       ∧ trace (syncProducts q) s = []
       ∧ (∀ shown, exec (syncProducts q) (exec (setProducts shown) s)
                   = exec (syncProducts q) s)
       ∧ exec (syncProducts q) (exec (syncProducts q) s) = exec (syncProducts q) s
       ∧ exec (setProducts (products s)) (exec (syncProducts q) s) = s).
Proof.
  split.
  - intros Hdata. unfold syncProducts. rewrite Hdata. reflexivity.
  - intros pages Hdata. unfold exec, trace.
    rewrite (syncProducts_run q pages s Hdata). simpl.
    split; [reflexivity|]. split; [reflexivity|]. split; [|split].
    + intros shown. rewrite (syncProducts_run q pages _ Hdata). reflexivity.
    + rewrite (syncProducts_run q pages _ Hdata). reflexivity.
    + destruct s. reflexivity.
Qed.

(** ** Scrolling *)

(** X4. The scroll handler never changes the component's state, whatever
    the window and the query, and it is monotone in the scroll position:
    with the same window, document and query, if it asks for the next page
    at one scroll offset it asks for it at every larger one. *)
Theorem handleScroll_monotone :
  (∀ q w s, exec (handleScroll q w) s = s)
  ∧ (∀ q w w' s,
       (innerHeight w' == innerHeight w)%Q →
       (offsetHeight w' == offsetHeight w)%Q →
       (scrollY w <= scrollY w')%Q →
       FetchNextPage ∈ trace (handleScroll q w) s →
       FetchNextPage ∈ trace (handleScroll q w') s).
Proof.
  split.
  - intros q w s. unfold exec. rewrite handleScroll_run. reflexivity.
  - intros q w w' s Hinner Hoffset Hscroll Hreq.
    apply handleScroll_requests in Hreq as (Hnear & Hidle & Hmore).
    apply handleScroll_requests. split; [|auto].
    rewrite Hinner, Hoffset.
    apply (Qle_trans _ _ _ Hnear). apply Qplus_le_r. exact Hscroll.
Qed.

Lemma handleScroll_monotone_witness :
  let q := {| data := Some []; hasNextPage := Some true;
              isFetchingNextPage := false |} in
  let w := {| innerHeight := 800; scrollY := 1100; offsetHeight := 2000 |} in
  let w' := {| innerHeight := 800; scrollY := 1200; offsetHeight := 2000 |} in
  FetchNextPage ∈ trace (handleScroll q w') Bench.empty
  ∧ exec (handleScroll q w') Bench.empty = Bench.empty.
Proof.
  intros q w w'. split.
  - refine (proj2 handleScroll_monotone q w w' Bench.empty _ _ _ _).
    + reflexivity.
    + reflexivity.
    + vm_compute. discriminate.
    + vm_compute. apply list_elem_of_here.
  - exact (proj1 handleScroll_monotone q w' Bench.empty).
Defined.

(** ** Navigation *)



(** ** Rendering: exceptions *)

Lemma mapM_result_cons {A B} (f : A → result B) (x : A) (l : list A) :
  mapM f (x :: l)
  = match f x with
    | Ok k =>
        match mapM f l with
        | Ok ks => Ok (k :: ks)
        | Throw e => Throw e
        end
    | Throw e => Throw e
    end.
Proof. reflexivity. Qed.

Lemma mapM_result_Ok {A B} (f : A → result B) (l : list A) : ∀ ks,
  mapM f l = Ok ks ↔ Forall2 (λ x k, f x = Ok k) l ks.
Proof.
  induction l as [|x l IH]; intros ks.
  - split.
    + intros [= <-]. constructor.
    + intros Hall. inversion Hall. reflexivity.
  - rewrite mapM_result_cons. destruct (f x) as [k|e] eqn:Hfx.
    + destruct (mapM f l) as [ks'|e] eqn:Hrest.
      * split.
        -- intros [= <-]. constructor; [exact Hfx|]. apply IH. reflexivity.
        -- intros Hall. inversion Hall as [|? k0 ? ks0 Hk Hks]; subst.
           rewrite Hfx in Hk. injection Hk as <-.
           apply IH in Hks. injection Hks as <-. reflexivity.
      * split; [discriminate|].
        intros Hall. inversion Hall as [|? k0 ? ks0 Hk Hks]; subst.
        apply IH in Hks. discriminate Hks.
    + split; [discriminate|].
      intros Hall. inversion Hall as [|? k0 ? ks0 Hk Hks]; subst.
      rewrite Hfx in Hk. discriminate Hk.
Qed.

Lemma mapM_result_succeeds {A B} (f : A → result B) (l : list A) :
  (∃ ks, mapM f l = Ok ks) ↔ Forall (λ x, ∃ k, f x = Ok k) l.
Proof.
  induction l as [|x l IH].
  - split; [constructor|]. intros _. eexists. reflexivity.
  - rewrite mapM_result_cons. split.
    + intros (ks & Hks). destruct (f x) as [k|e] eqn:Hfx; [|discriminate].
      constructor; [eauto|]. apply IH.
      destruct (mapM f l) as [ks'|e]; [eauto|discriminate].
    + intros Hall. inversion Hall as [|? ? (k & Hk) Hrest]; subst.
      apply IH in Hrest as (ks & Hks). rewrite Hk, Hks. eexists. reflexivity.
Qed.

Section Rendering.
Context {platform : Platform}.
Variable props : ProductCatalogProps.

Lemma render_cases (q : InfiniteQuery) (s : State) :
  isLoadingResults s = false →
  render props q s
  = if decide (0 < length (results s))%nat then
      match searchCells props s with
      | Ok cells =>
          Ok (Content (SearchResults (t_count "products_found" (quantity s)) cells)
                (isFetchingNextPage q))
      | Throw e => Throw e
      end
    else if negb (String.eqb (query s) "") then
      Ok (Content NoResults (isFetchingNextPage q))
    else
      match catalogCells props s with
      | Ok cells => Ok (Content (CatalogGrid cells) (isFetchingNextPage q))
      | Throw e => Throw e
      end.
Proof.
  intros Hload. unfold render. rewrite Hload.
  destruct (decide (0 < length (results s))%nat).
  - destruct (searchCells props s); reflexivity.
  - destruct (negb (String.eqb (query s) "")); [reflexivity|].
    destruct (catalogCells props s); reflexivity.
Qed.

(** X6. [renderProduct] throws exactly for a product that is not hidden
    and whose metadata has a truthy [imageUrl] that is not a string or a
    [strength] that is neither null, undefined nor a string; what it throws
    is a [TypeError]. *)
Theorem renderProduct_throws_iff (s : State) (p : Product.t) (e : exn) :
  renderProduct props s p = Throw e ↔
  Product.hidden p ≠ Some true
  ∧ e = TypeError
  ∧ (truthy (opt_get (parseMetadata (Product.nftMetadata p)) "imageUrl")
       && negb (is_string (opt_get (parseMetadata (Product.nftMetadata p)) "imageUrl"))
     || negb (nullish (opt_get (parseMetadata (Product.nftMetadata p)) "strength"))
       && negb (is_string (opt_get (parseMetadata (Product.nftMetadata p)) "strength")))
    = true.
Proof.
  unfold renderProduct, imageUrl, strength.
  destruct (decide (Product.hidden p = Some true)) as [Hhid|Hvis].
  { split; [discriminate|]. intros (Hvis & _). contradiction. }
  destruct (opt_get (parseMetadata (Product.nftMetadata p)) "imageUrl")
    as [| |b|n|url|l|o];
    destruct (opt_get (parseMetadata (Product.nftMetadata p)) "strength")
      as [| |b'|n'|str|l'|o'];
    simpl;
    try destruct b; try destruct (Qeq_bool n 0);
    try destruct (String.eqb url ""); try destruct (String.prefix "Qm" url);
    simpl;
    (split;
     [ first [discriminate | intros [= <-]; auto]
     | first [intros (_ & -> & _); reflexivity | intros (_ & _ & ?); discriminate] ]).
Qed.
End Rendering.

(** ** Rendering: the tree *)

Section Tree.
Context {platform : Platform}.
Variable props : ProductCatalogProps.

Lemma renderProduct_null (s : State) (p : Product.t) :
  renderProduct props s p = Ok None ↔ Product.hidden p = Some true.
Proof.
  split; [|apply renderProduct_hidden].
  unfold renderProduct.
  destruct (decide (Product.hidden p = Some true)) as [Hhid|_]; [auto|].
  destruct (imageUrl _); [|discriminate].
  destruct (strength _); discriminate.
Qed.

Lemma render_Ok_inv (q : InfiniteQuery) (s : State) (v : View) :
  render props q s = Ok v →
  (isLoadingResults s = true ∧ v = Skeletons)
  ∨ (isLoadingResults s = false ∧ results s ≠ []
     ∧ ∃ cells, searchCells props s = Ok cells
         ∧ v = Content (SearchResults (t_count "products_found" (quantity s)) cells)
                 (isFetchingNextPage q))
  ∨ (isLoadingResults s = false ∧ results s = [] ∧ query s ≠ ""
     ∧ v = Content NoResults (isFetchingNextPage q))
  ∨ (isLoadingResults s = false ∧ results s = [] ∧ query s = ""
     ∧ ∃ cells, catalogCells props s = Ok cells
         ∧ v = Content (CatalogGrid cells) (isFetchingNextPage q)).
Proof.
  destruct (isLoadingResults s) eqn:Hload.
  { rewrite (render_loading props q s Hload). intros [= <-]. auto. }
  rewrite (render_cases props q s Hload).
  destruct (decide (0 < length (results s))%nat) as [Hlen|Hlen].
  - destruct (searchCells props s) as [cells|e]; [|discriminate].
    intros [= <-]. right. left. split; [reflexivity|]. split; [|eauto].
    intros Hnil. rewrite Hnil in Hlen. simpl in Hlen. lia.
  - assert (results s = []) as Hnil.
    { destruct (results s); [reflexivity|]. simpl in Hlen. lia. }
    destruct (String.eqb (query s) "") eqn:Hq; simpl.
    + apply String.eqb_eq in Hq.
      destruct (catalogCells props s) as [cells|e]; [|discriminate].
      intros [= <-]. do 3 right. eauto 6.
    + apply String.eqb_neq in Hq.
      intros [= <-]. right. right. left. auto.
Qed.

(** X8. Which tree the component returns follows the state in a fixed
    order of precedence: the skeleton grid exactly under the loading flag;
    else the search results whenever there are results, whatever the query;
    else the no-results panel under a non-empty query; else the catalog
    grid.  The trailing skeletons follow [isFetchingNextPage]. *)
Theorem render_precedence (q : InfiniteQuery) (s : State) (v : View) :
  render props q s = Ok v →
  match v with
  | Skeletons => isLoadingResults s = true
  | Content (SearchResults header _) more =>
      isLoadingResults s = false ∧ results s ≠ []
      ∧ header = t_count "products_found" (quantity s)
      ∧ more = isFetchingNextPage q
  | Content NoResults more =>
      isLoadingResults s = false ∧ results s = [] ∧ query s ≠ ""
      ∧ more = isFetchingNextPage q
  | Content (CatalogGrid _) more =>
      isLoadingResults s = false ∧ results s = [] ∧ query s = ""
      ∧ more = isFetchingNextPage q
  end.
Proof.
  intros Hrender.
  destruct (render_Ok_inv q s v Hrender)
    as [(Hload & ->)
       |[(Hload & Hres & cells & _ & ->)
        |[(Hload & Hres & Hq & ->)
         |(Hload & Hres & Hq & cells & _ & ->)]]]; auto.
Qed.

(** X9. When every search result is hidden, the component still takes the
    search-results branch: the header with the result count over an empty
    grid, not the no-results panel, and it cannot throw. *)
Theorem all_results_hidden (q : InfiniteQuery) (s : State) :
  isLoadingResults s = false →
  results s ≠ [] →
  Forall (λ product, Product.hidden product = Some true) (results s) →
  render props q s
  = Ok (Content (SearchResults (t_count "products_found" (quantity s)) [])
          (isFetchingNextPage q)).
Proof.
  intros Hload Hres Hall. rewrite (render_cases props q s Hload).
  destruct (decide (0 < length (results s))%nat) as [_|Hlen].
  - unfold searchCells.
    assert (filter Product.visible (results s) = []) as ->; [|reflexivity].
    induction Hall as [|product l Hhid _ IH]; [reflexivity|].
    rewrite filter_cons.
    destruct (decide (Product.visible product)) as [Hvis|_]; [destruct (Hvis Hhid)|].
    destruct l as [|product' l]; [reflexivity|]. apply IH. discriminate.
  - destruct (results s); [contradiction|]. simpl in Hlen. lia.
Qed.

Lemma searchCells_spec (s : State) (l : list Product.t) : ∀ cells,
  Forall Product.visible l →
  mapM (λ product,
          child ← renderProduct props s (Product.with_stock product);
          mret {| cell_key := Product.id product; cell_child := child |}) l
  = Ok cells →
  Forall2 (λ product cell,
             cell_shows s product cell
             ∧ ∃ card, cell_child cell = Some card
                 ∧ card_stock card = Some (default 0 (Product.stock product)))
    l cells.
Proof.
  induction l as [|product l IH]; intros cells Hvis.
  - intros [= <-]. constructor.
  - rewrite mapM_result_cons.
    inversion Hvis as [|? ? Hp Hl]; subst.
    unfold mbind at 1, result_bind at 1.
    destruct (renderProduct props s (Product.with_stock product))
      as [[card|]|e] eqn:Hrender; simpl.
    + destruct (mapM _ l) as [cells'|e] eqn:Hrest; [|discriminate].
      intros [= <-]. constructor; [|apply IH; auto].
      apply renderProduct_card in Hrender
        as (_ & _ & _ & _ & Hprice & Hstock & Hkey & Hadding).
      unfold cell_shows. simpl. split; [split; [reflexivity|]|]; eauto 8.
    + apply renderProduct_null in Hrender. destruct (Hp Hrender).
    + discriminate.
Qed.

(** X10. In the search-results tree there is one cell per result that is
    not hidden, in the order of the results; each cell is keyed by its
    product's id and holds a card for that product whose stock is defined:
    the product's, or 0 where the product has none. *)
Theorem search_grid_cells
    (q : InfiniteQuery) (s : State) (header : string) (cells : list Cell) (more : bool) :
  render props q s = Ok (Content (SearchResults header cells) more) →
  Forall2 (λ product cell,
             cell_shows s product cell
             ∧ ∃ card, cell_child cell = Some card
                 ∧ card_stock card = Some (default 0 (Product.stock product)))
    (filter Product.visible (results s)) cells.
Proof.
  intros Hrender.
  destruct (render_Ok_inv q s _ Hrender)
    as [(_ & [=])
       |[(_ & _ & cells' & Hcells & [= -> <- _])
        |[(_ & _ & _ & [=])
         |(_ & _ & _ & cells' & _ & [=])]]].
  apply searchCells_spec; [|exact Hcells].
  apply Forall_forall. intros product Hin.
  apply list_elem_of_filter in Hin as [Hvis _]. exact Hvis.
Qed.
End Tree.

Section Grid.
Context {platform : Platform}.
Variable props : ProductCatalogProps.

Lemma catalogCells_spec (s : State) (l : list Product.t) : ∀ cells,
  mapM (λ product,
          child ← renderProduct props s product;
          mret {| cell_key := Product.id product; cell_child := child |}) l
  = Ok cells →
  Forall2 (λ product cell,
             cell_key cell = Product.id product
             ∧ (Product.hidden product = Some true → cell_child cell = None)
             ∧ (Product.hidden product ≠ Some true →
                cell_shows s product cell
                ∧ ∃ card, cell_child cell = Some card
                    ∧ card_stock card = Product.stock product))
    l cells.
Proof.
  induction l as [|product l IH]; intros cells.
  - intros [= <-]. constructor.
  - rewrite mapM_result_cons. unfold mbind at 1, result_bind at 1.
    destruct (renderProduct props s product) as [[card|]|e] eqn:Hrender; simpl.
    + destruct (mapM _ l) as [cells'|e] eqn:Hrest; [|discriminate].
      intros [= <-]. constructor; [|apply IH; auto].
      apply renderProduct_card in Hrender
        as (Hvis & _ & _ & _ & Hprice & Hstock & Hkey & Hadding).
      unfold cell_shows. simpl. split; [reflexivity|]. split; [contradiction|].
      intros _. split; [split; [reflexivity|]|]; eauto 8.
    + destruct (mapM _ l) as [cells'|e] eqn:Hrest; [|discriminate].
      intros [= <-]. constructor; [|apply IH; auto].
      apply renderProduct_null in Hrender. simpl.
      split; [reflexivity|]. split; [reflexivity|]. contradiction.
    + discriminate.
Qed.

(** X11. In the catalog tree there is one cell per accumulated product,
    in order and keyed by the product's id; the cell of a hidden product is
    empty, every other cell holds the product's card with the product's
    stock.  When the products are what the page effect accumulated, every
    cell holds a card and every card has a defined stock. *)
Theorem catalog_grid_cells
    (q : InfiniteQuery) (s : State) (cells : list Cell) (more : bool) :
  render props q s = Ok (Content (CatalogGrid cells) more) →
  Forall2 (λ product cell,
             cell_key cell = Product.id product
             ∧ (Product.hidden product = Some true → cell_child cell = None)
             ∧ (Product.hidden product ≠ Some true →
                cell_shows s product cell
                ∧ ∃ card, cell_child cell = Some card
                    ∧ card_stock card = Product.stock product))
    (products s) cells
  ∧ (∀ pages,
       products s = allProducts pages →
       Forall (λ cell, ∃ card, cell_child cell = Some card
                         ∧ is_Some (card_stock card)) cells).
Proof.
  intros Hrender.
  destruct (render_Ok_inv props q s _ Hrender)
    as [(_ & [=])
       |[(_ & _ & cells' & _ & [=])
        |[(_ & _ & _ & [=])
         |(_ & _ & _ & cells' & Hcells & [= -> _])]]].
  pose proof (catalogCells_spec s (products s) cells' Hcells) as Hspec.
  split; [exact Hspec|].
  intros pages Hsync. rewrite Hsync in Hspec.
  assert (Forall (λ product, Product.hidden product ≠ Some true
                             ∧ is_Some (Product.stock product))
            (allProducts pages)) as Hnorm.
  { apply Forall_forall. intros product Hin.
    apply elem_of_allProducts in Hin as (page & q0 & _ & _ & Hvis & ->).
    simpl. split; [exact Hvis|eauto]. }
  clear Hsync Hcells Hrender.
  induction Hspec as [|product cell l k (_ & _ & Hcard) _ IH]; [constructor|].
  inversion Hnorm as [|? ? (Hvis & Hstock) Hrest]; subst.
  constructor; [|apply IH; exact Hrest].
  destruct (Hcard Hvis) as (_ & card & Hchild & Hcs).
  exists card. rewrite Hcs. auto.
Qed.

(** X12. Rendering succeeds exactly when the loading flag is set or
    [renderProduct] succeeds on each product that is displayed; a product
    that is not displayed (a hidden result, the accumulated products under
    a search) cannot make it throw. *)
Theorem render_succeeds_iff (q : InfiniteQuery) (s : State) :
  (∃ v, render props q s = Ok v) ↔
  isLoadingResults s = true
  ∨ Forall (λ product, ∃ child, renderProduct props s product = Ok child)
      (displayed s).
Proof.
  destruct (isLoadingResults s) eqn:Hload.
  { rewrite (render_loading props q s Hload). split; eauto. }
  rewrite (render_cases props q s Hload). unfold displayed.
  destruct (decide (0 < length (results s))%nat) as [Hlen|Hlen].
  - rewrite Forall_fmap.
    pose proof (mapM_result_succeeds
      (λ product,
         child ← renderProduct props s (Product.with_stock product);
         mret {| cell_key := Product.id product; cell_child := child |})
      (filter Product.visible (results s))) as Hm.
    fold (searchCells props s) in Hm. split.
    + intros (v & Hv). right.
      destruct (searchCells props s) as [cells|e]; [|discriminate].
      eapply Forall_impl; [apply Hm; eauto|].
      intros product (cell & Hcell). simpl.
      unfold mbind, result_bind in Hcell.
      destruct (renderProduct props s (Product.with_stock product)); [eauto|discriminate].
    + intros [Hfalse|Hall]; [discriminate|].
      assert (∃ cells, searchCells props s = Ok cells) as (cells & ->).
      { apply Hm. eapply Forall_impl; [exact Hall|].
        intros product (child & Hchild). simpl in Hchild.
        unfold mbind, result_bind. rewrite Hchild. eexists. reflexivity. }
      eauto.
  - destruct (negb (String.eqb (query s) "")).
    + split; [intros _; right; constructor|eauto].
    + pose proof (mapM_result_succeeds
        (λ product,
           child ← renderProduct props s product;
           mret {| cell_key := Product.id product; cell_child := child |})
        (products s)) as Hm.
      fold (catalogCells props s) in Hm. split.
      * intros (v & Hv). right.
        destruct (catalogCells props s) as [cells|e]; [|discriminate].
        eapply Forall_impl; [apply Hm; eauto|].
        intros product (cell & Hcell).
        unfold mbind, result_bind in Hcell.
        destruct (renderProduct props s product); [eauto|discriminate].
      * intros [Hfalse|Hall]; [discriminate|].
        assert (∃ cells, catalogCells props s = Ok cells) as (cells & ->).
        { apply Hm. eapply Forall_impl; [exact Hall|].
          intros product (child & Hchild).
          unfold mbind, result_bind. rewrite Hchild. eexists. reflexivity. }
        eauto.
Qed.

(** X13. Metadata delivered as a JSON text renders exactly as the value
    the text parses to, delivered structured, provided that value is not
    itself a string (a string would be parsed once more). *)
Theorem serialized_metadata_renders_as_parsed
    (s : State) (p : Product.t) (text : string) (metadata : jsval) :
  JSON_parse text = Ok metadata →
  is_string metadata = false →
  renderProduct props s (Product.with_nftMetadata p (JStr text))
  = renderProduct props s (Product.with_nftMetadata p metadata).
Proof.
  intros Hparse Hstr. unfold renderProduct. simpl. rewrite Hparse.
  destruct metadata; try discriminate Hstr; reflexivity.
Qed.

(** X14. After [clearSearch] the component is back on the catalog: the
    tree is the catalog grid over the accumulated products (or the
    exception one of them raises), never skeletons, search results or the
    no-results panel; clearing calls no collaborator, keeps the products,
    the "adding" marker and the mutations in flight, and clearing twice is
    clearing once. *)
Theorem clearSearch_returns_to_catalog (q : InfiniteQuery) (s : State) :
  render props q (exec clearSearch s)
  = match catalogCells props s with
    | Ok cells => Ok (Content (CatalogGrid cells) (isFetchingNextPage q))
    | Throw e => Throw e
    end
  ∧ trace clearSearch s = []
  ∧ products (exec clearSearch s) = products s
  ∧ addingToCart (exec clearSearch s) = addingToCart s
  ∧ inFlight (exec clearSearch s) = inFlight s
  ∧ exec clearSearch (exec clearSearch s) = exec clearSearch s.
Proof.
  unfold exec, trace. rewrite !clearSearch_run. simpl.
  split; [|auto 6].
  rewrite render_cases by reflexivity. simpl. reflexivity.
Qed.
End Grid.

(** ** More on the cart *)

(** X15. A mutation issued by [handleAddToCart] that settles before any
    other click leaves the component as it was, with the marker cleared:
    the mutations in flight are the ones from before the click.  The
    collaborators see the cart-add call, followed by a cart refetch only on
    success. *)
Theorem add_then_settle_round_trip
    (props : ProductCatalogProps) (p : Product.t) (o : outcome) (s : State) :
  isConnected props = Some true ∨ onConnect props = None →
  exec (handleAddToCart props p ;; settle (length (inFlight s)) o) s
  = exec (setAddingToCart None) s
  ∧ trace (handleAddToCart props p ;; settle (length (inFlight s)) o) s
    = CartAdd (cart_input p)
      :: match o with Success => [RefetchCart] | Failure => [] end.
Proof.
  intros Hcase. unfold exec, trace, mbind, Act_bind.
  rewrite (handleAddToCart_mutates props p s Hcase).
  rewrite (settle_run (length (inFlight s)) o _ (cart_input p)).
  - simpl. rewrite (delete_middle (inFlight s) [] (cart_input p)), app_nil_r.
    rewrite length_app. simpl.
    destruct (decide (S (length (inFlight s)) = (length (inFlight s) + 1)%nat));
      [|lia].
    split; reflexivity.
  - simpl. apply list_lookup_middle. reflexivity.
Qed.

Lemma add_then_settle_round_trip_witness :
  exec (handleAddToCart Bench.member (Bench.product 5 None JNull) ;;
        settle 0 Success) Bench.empty = Bench.empty.
Proof.
  exact (proj1 (add_then_settle_round_trip Bench.member (Bench.product 5 None JNull)
                  Success Bench.empty (or_introl eq_refl))).
Defined.

Lemma clicks_connected (props : ProductCatalogProps) (p : Product.t) (n : nat) :
  isConnected props = Some true ∨ onConnect props = None →
  ∀ s,
    trace (clicks props p n) s = replicate n (CartAdd (cart_input p))
    ∧ inFlight (exec (clicks props p n) s)
      = inFlight s ++ replicate n (cart_input p).
Proof.
  intros Hcase. induction n as [|n IH]; intros s.
  - simpl. rewrite app_nil_r. auto.
  - unfold trace, exec in *. simpl. unfold mbind, Act_bind.
    rewrite (handleAddToCart_mutates props p s Hcase).
    match goal with
    | |- context [clicks props p n ?s1] =>
        destruct (IH s1) as [Htrace Hflight];
        destruct (clicks props p n s1) as [[[] s2] l2]
    end.
    simpl in *. rewrite Htrace, Hflight, <- app_assoc. auto.
Qed.

(** X16. The handler does not look at the "adding" marker: [n] clicks on
    one card, none of them settled, issue [n] cart-add mutations for that
    product, all in flight together. *)
Theorem clicks_are_not_deduplicated
    (props : ProductCatalogProps) (p : Product.t) (n : nat) (s : State) :
  isConnected props = Some true ∨ onConnect props = None →
  trace (clicks props p n) s = replicate n (CartAdd (cart_input p))
  ∧ inFlight (exec (clicks props p n) s)
    = inFlight s ++ replicate n (cart_input p).
Proof. intros Hcase. apply clicks_connected, Hcase. Qed.

Lemma clicks_are_not_deduplicated_witness :
  trace (clicks Bench.member (Bench.product 5 None JNull) 3) Bench.empty
  = [CartAdd (cart_input (Bench.product 5 None JNull));
     CartAdd (cart_input (Bench.product 5 None JNull));
     CartAdd (cart_input (Bench.product 5 None JNull))].
Proof.
  exact (proj1 (clicks_are_not_deduplicated Bench.member (Bench.product 5 None JNull)
                  3 Bench.empty (or_introl eq_refl))).
Defined.

(** ** The page composer *)

Section HomePage.
Context {platform : Platform}.
Variable t_ns : string → string → string.
Variable address : option string.
Variable disconnect : callback.

Lemma Home_carousel_rule (s : State) :
  (carousel (Home t_ns address disconnect s) = Some (carouselData t_ns)
   ↔ query s = "")
  ∧ (carousel (Home t_ns address disconnect s) = None ↔ query s ≠ "").
Proof.
  unfold Home. simpl.
  destruct (query s) as [|c rest] eqn:Hq; simpl.
  - split; [split; reflexivity|].
    split; [discriminate|]. intros Hne. destruct (Hne eq_refl).
  - destruct (decide (S (String.length rest) ≤ 0)%nat) as [Hle|_]; [lia|].
    split; [split; discriminate|].
    split; [discriminate|reflexivity].
Qed.

(** X17. [Home] shows the carousel exactly when the search query is
    empty; the carousel has the three cards with ids "1", "2", "3" and the
    three carousel images, the header always shows the cart and gets the
    wallet address as it is. *)
Theorem Home_carousel (s : State) :
  (carousel (Home t_ns address disconnect s) = Some (carouselData t_ns)
   ↔ query s = "")
  ∧ (carousel (Home t_ns address disconnect s) = None ↔ query s ≠ "")
  ∧ carousel_id <$> carouselData t_ns = ["1"; "2"; "3"]
  ∧ carousel_image <$> carouselData t_ns
    = ["/images/carousel1.webp"; "/images/carousel2.webp"; "/images/carousel3.webp"]
  ∧ header_showCart (Home t_ns address disconnect s) = true
  ∧ header_address (Home t_ns address disconnect s) = address.
Proof.
  destruct (Home_carousel_rule s) as [Hshown Hhidden].
  split; [exact Hshown|]. split; [exact Hhidden|]. auto.
Qed.

(** X18. [Home] renders the catalog without props, so on the home page
    add-to-cart never takes the connect branch: every click sets the marker
    and issues the mutation, and every card is told [isConnected] is
    undefined. *)
Theorem Home_catalog_always_mutates (s s' : State) (p : Product.t) :
  handleAddToCart (catalog_props (Home t_ns address disconnect s)) p s'
  = (tt, exec (setInFlight (inFlight s' ++ [cart_input p]))
           (exec (setAddingToCart (Some (Product.id p))) s'),
     [CartAdd (cart_input p)])
  ∧ (∀ card,
       renderProduct (catalog_props (Home t_ns address disconnect s)) s' p
       = Ok (Some card) →
       card_isConnected card = None
       ∧ onAddToCart card s'
         = (tt, exec (setInFlight (inFlight s' ++ [cart_input p]))
                  (exec (setAddingToCart (Some (Product.id p))) s'),
            [CartAdd (cart_input p)])).
Proof.
  split; [reflexivity|].
  intros card. unfold renderProduct.
  destruct (decide (Product.hidden p = Some true)); [discriminate|].
  destruct (imageUrl _); [|discriminate].
  destruct (strength _); [|discriminate].
  simpl. intros [= <-]. simpl. split; reflexivity.
Qed.

(** X19. The carousel and the catalog read the same query: whenever the
    catalog shows the no-results panel the carousel is hidden, whenever it
    shows the catalog grid the carousel is shown, and after [clearSearch]
    the carousel is shown. *)
Theorem Home_carousel_follows_catalog (q : InfiniteQuery) (s : State) :
  (∀ v,
     render (catalog_props (Home t_ns address disconnect s)) q s = Ok v →
     match v with
     | Content NoResults _ => carousel (Home t_ns address disconnect s) = None
     | Content (CatalogGrid _) _ =>
         carousel (Home t_ns address disconnect s) = Some (carouselData t_ns)
     | _ => True
     end)
  ∧ carousel (Home t_ns address disconnect (exec clearSearch s))
    = Some (carouselData t_ns).
Proof.
  split; [|reflexivity].
  intros v Hrender.
  destruct (render_Ok_inv _ q s v Hrender)
    as [(_ & ->)
       |[(_ & _ & cells & _ & ->)
        |[(_ & _ & Hq & ->)
         |(_ & _ & Hq & cells & _ & ->)]]]; try exact I.
  - apply (Home_carousel_rule s). exact Hq.
  - apply (Home_carousel_rule s). exact Hq.
Qed.
End HomePage.

(** ** The scroll listener over the life of the component *)

Lemma foreign_not_handleScroll (ls0 : list listener) (h : listener) :
  Forall (λ h', is_handleScroll h' = false) ls0 →
  is_handleScroll h = true → h ∉ ls0.
Proof.
  intros Hall Hh Hin. rewrite Forall_forall in Hall.
  rewrite (Hall h Hin) in Hh. discriminate Hh.
Qed.

Lemma removeEventListener_absent (h : listener) (ls : list listener) :
  h ∉ ls → removeEventListener h ls = ls.
Proof.
  unfold removeEventListener. induction ls as [|h' ls IH]; intros Hnin; [reflexivity|].
  apply not_elem_of_cons in Hnin as [Hne Hnin].
  rewrite filter_cons. destruct (decide (h' ≠ h)) as [_|Heq].
  - rewrite (IH Hnin). reflexivity.
  - destruct Heq. congruence.
Qed.

Lemma cleanup_undoes_effect (h : listener) (ls : list listener) :
  h ∉ ls → scroll_cleanup h (scroll_effect h ls) = ls.
Proof.
  intros Hnin. unfold scroll_cleanup, scroll_effect, addEventListener.
  destruct (decide (h ∈ ls)) as [Hin|_]; [contradiction|].
  unfold removeEventListener. rewrite filter_app.
  fold (removeEventListener h ls). rewrite (removeEventListener_absent h ls Hnin).
  rewrite filter_cons. destruct (decide (h ≠ h)) as [Hne|_]; [destruct (Hne eq_refl)|].
  apply app_nil_r.
Qed.

Lemma phase_step_inv (ls0 : list listener) (m : Mounted) (ph : phase) :
  Forall (λ h, is_handleScroll h = false) ls0 →
  listeners m = ls0 ++ option_list (attached m)
  ∧ (∀ h, attached m = Some h → is_handleScroll h = true) →
  listeners (phase_step m ph) = ls0 ++ option_list (attached (phase_step m ph))
  ∧ (∀ h, attached (phase_step m ph) = Some h → is_handleScroll h = true).
Proof.
  intros Hforeign [Hls Hkind]. destruct m as [[h|] ls]; simpl in *.
  - pose proof (Hkind h eq_refl) as Hh.
    pose proof (foreign_not_handleScroll ls0 h Hforeign Hh) as Hnin.
    assert (scroll_cleanup h ls = ls0) as Hclean.
    { rewrite Hls. change (ls0 ++ [h]) with (ls0 ++ [h]).
      pose proof (cleanup_undoes_effect h ls0 Hnin) as Hundo.
      unfold scroll_effect, addEventListener in Hundo.
      destruct (decide (h ∈ ls0)); [contradiction|exact Hundo]. }
    destruct ph as [q|]; simpl.
    + destruct (decide (h = handleScroll_of q)) as [Heq|Hne]; simpl; [auto|].
      rewrite Hclean. split; [|intros h' [= <-]; reflexivity].
      unfold scroll_effect, addEventListener.
      destruct (decide (handleScroll_of q ∈ ls0)) as [Hin|_]; [|reflexivity].
      destruct (foreign_not_handleScroll ls0 (handleScroll_of q) Hforeign eq_refl Hin).
    + rewrite Hclean, app_nil_r. split; [reflexivity|discriminate].
  - rewrite app_nil_r in Hls. subst ls. destruct ph as [q|]; simpl.
    + split; [|intros h' [= <-]; reflexivity].
      unfold scroll_effect, addEventListener.
      destruct (decide (handleScroll_of q ∈ ls0)) as [Hin|_]; [|reflexivity].
      destruct (foreign_not_handleScroll ls0 (handleScroll_of q) Hforeign eq_refl Hin).
    + rewrite app_nil_r. split; [reflexivity|discriminate].
Qed.

Lemma attached_after_commit (m : Mounted) (q : InfiniteQuery) :
  attached (phase_step m (Commit q)) = Some (handleScroll_of q).
Proof.
  destruct m as [[h|] ls]; simpl; [|reflexivity].
  destruct (decide (h = handleScroll_of q)) as [->|_]; reflexivity.
Qed.

Lemma attached_after_unmount (m : Mounted) :
  attached (phase_step m Unmount) = None.
Proof. destruct m as [[h|] ls]; reflexivity. Qed.

Lemma lifecycle_snoc (m : Mounted) (phs : list phase) (ph : phase) :
  lifecycle m (phs ++ [ph]) = phase_step (lifecycle m phs) ph.
Proof. unfold lifecycle. rewrite foldl_app. reflexivity. Qed.

Lemma lifecycle_inv (ls0 : list listener) (phs : list phase) : ∀ m,
  Forall (λ h, is_handleScroll h = false) ls0 →
  listeners m = ls0 ++ option_list (attached m)
  ∧ (∀ h, attached m = Some h → is_handleScroll h = true) →
  listeners (lifecycle m phs) = ls0 ++ option_list (attached (lifecycle m phs))
  ∧ (∀ h, attached (lifecycle m phs) = Some h → is_handleScroll h = true).
Proof.
  induction phs as [|ph phs IH]; intros m Hforeign Hinv; [exact Hinv|].
  simpl. apply IH; [exact Hforeign|]. apply phase_step_inv; assumption.
Qed.

Lemma dispatch_scroll_foreign (q : InfiniteQuery) (w : WindowMetrics)
    (ls0 ls : list listener) :
  Forall (λ h, is_handleScroll h = false) ls0 →
  dispatch_scroll q w (ls0 ++ ls) = dispatch_scroll q w ls.
Proof.
  intros Hforeign. induction Hforeign as [|h ls0 Hh _ IH]; [reflexivity|].
  destruct h; [discriminate Hh|]. simpl. exact IH.
Qed.

(** X20. The scroll listener over mounts, updates and unmounts, next to
    listeners of other code: the window holds the other listeners untouched
    and at most one [handleScroll], the one of the latest committed render;
    after an unmount the window's listeners are what they were before the
    mount; and one scroll event leads to at most one [fetchNextPage]. *)
Theorem scroll_listener_lifecycle (ls0 : list listener) (phs : list phase) :
  Forall (λ h, is_handleScroll h = false) ls0 →
  listeners (lifecycle {| attached := None; listeners := ls0 |} phs)
  = ls0 ++ option_list (attached (lifecycle {| attached := None; listeners := ls0 |} phs))
  ∧ (∀ phs' q,
       phs = phs' ++ [Commit q] →
       attached (lifecycle {| attached := None; listeners := ls0 |} phs)
       = Some (handleScroll_of q))
  ∧ (∀ phs',
       phs = phs' ++ [Unmount] →
       listeners (lifecycle {| attached := None; listeners := ls0 |} phs) = ls0)
  ∧ (∀ q w s,
       (length (trace (dispatch_scroll q w
                         (listeners (lifecycle {| attached := None; listeners := ls0 |} phs)))
                  s) ≤ 1)%nat).
Proof.
  intros Hforeign.
  assert (∀ phs0,
            listeners (lifecycle {| attached := None; listeners := ls0 |} phs0)
            = ls0 ++ option_list
                       (attached (lifecycle {| attached := None; listeners := ls0 |} phs0))
            ∧ (∀ h, attached (lifecycle {| attached := None; listeners := ls0 |} phs0)
                    = Some h → is_handleScroll h = true)) as Hinv.
  { intros phs0. apply lifecycle_inv; [exact Hforeign|]. simpl.
    rewrite app_nil_r. split; [reflexivity|discriminate]. }
  split; [apply Hinv|]. split; [|split].
  - intros phs' q ->. rewrite lifecycle_snoc. apply attached_after_commit.
  - intros phs' ->.
    destruct (Hinv (phs' ++ [Unmount])) as [Hls _]. rewrite Hls.
    rewrite lifecycle_snoc, attached_after_unmount. apply app_nil_r.
  - intros q w s. destruct (Hinv phs) as [Hls Hkind]. rewrite Hls.
    rewrite (dispatch_scroll_foreign q w ls0 _ Hforeign).
    destruct (attached (lifecycle _ phs)) as [h|]; simpl; [|unfold trace; simpl; lia].
    destruct h as [fetching more|n]; [|unfold trace; simpl; lia].
    unfold trace, mbind, Act_bind. rewrite handleScroll_run. simpl.
    destruct (_ && _ && _); simpl; lia.
Qed.

Lemma scroll_listener_lifecycle_witness :
  let q := {| data := None; hasNextPage := None; isFetchingNextPage := false |} in
  let q' := {| data := Some []; hasNextPage := Some true;
               isFetchingNextPage := false |} in
  listeners (lifecycle {| attached := None; listeners := [Foreign 0; Foreign 1] |}
               [Commit q; Commit q'; Unmount])
  = [Foreign 0; Foreign 1].
Proof.
  intros q q'.
  refine (proj1 (proj2 (proj2 (scroll_listener_lifecycle [Foreign 0; Foreign 1]
                                 [Commit q; Commit q'; Unmount] _)))
            [Commit q; Commit q'] eq_refl).
  repeat constructor.
Defined.

(** ** Witnesses on the bench *)

Lemma render_precedence_witness :
  render (platform := Bench.platform) Bench.guest Bench.first_fetch
    (exec (setQuery "arabica") Bench.empty)
  = Ok (Content NoResults false)
  ∧ query (exec (setQuery "arabica") Bench.empty) ≠ "".
Proof.
  split; [reflexivity|].
  exact (proj1 (proj2 (proj2
    (render_precedence (platform := Bench.platform) Bench.guest Bench.first_fetch
       (exec (setQuery "arabica") Bench.empty) (Content NoResults false) eq_refl)))).
Defined.

Lemma all_results_hidden_witness :
  render (platform := Bench.platform) Bench.guest Bench.first_fetch
    (exec (setQuery "arabica")
       (exec (setSearchResults [Bench.product 2 (Some true) (JNum 1)]) Bench.empty))
  = Ok (Content (SearchResults "products_found:0" []) false).
Proof.
  refine (all_results_hidden (platform := Bench.platform) Bench.guest Bench.first_fetch
            (exec (setQuery "arabica")
               (exec (setSearchResults [Bench.product 2 (Some true) (JNum 1)])
                  Bench.empty)) eq_refl _ _).
  - discriminate.
  - repeat constructor.
Defined.

Lemma search_grid_cells_witness :
  ∃ header cells,
    render (platform := Bench.platform) Bench.guest Bench.first_fetch
      (exec (setSearchResults [Bench.product 1 None Bench.metadata_http]) Bench.empty)
    = Ok (Content (SearchResults header cells) false)
    ∧ Forall2 (λ product cell,
                 cell_key cell = Product.id product
                 ∧ ∃ card, cell_child cell = Some card
                     ∧ card_stock card = Some (default 0 (Product.stock product)))
        [Bench.product 1 None Bench.metadata_http] cells.
Proof.
  do 2 eexists. split; [reflexivity|].
  eapply Forall2_impl.
  - exact (search_grid_cells (platform := Bench.platform) Bench.guest
             Bench.first_fetch
             (exec (setSearchResults [Bench.product 1 None Bench.metadata_http])
                Bench.empty) _ _ _ eq_refl).
  - intros product cell ((Hkey & _) & Hcard). auto.
Defined.

Lemma catalog_grid_cells_witness :
  ∃ cells,
    render (platform := Bench.platform) Bench.member Bench.first_fetch
      (exec (setProducts [Bench.product 1 None JNull; Bench.product 2 (Some true) JNull])
         Bench.empty)
    = Ok (Content (CatalogGrid cells) false)
    ∧ length cells = 2%nat.
Proof.
  eexists. split; [reflexivity|].
  pose proof (proj1 (catalog_grid_cells (platform := Bench.platform) Bench.member
                       Bench.first_fetch
                       (exec (setProducts [Bench.product 1 None JNull;
                                           Bench.product 2 (Some true) JNull])
                          Bench.empty) _ _ eq_refl)) as Hcells.
  apply Forall2_length in Hcells. symmetry. exact Hcells.
Defined.

Lemma serialized_metadata_renders_as_parsed_witness :
  renderProduct (platform := Bench.platform) Bench.guest Bench.empty
    (Bench.product 6 None (JStr "{}"))
  = renderProduct (platform := Bench.platform) Bench.guest Bench.empty
      (Bench.product 6 None (JObj ∅)).
Proof.
  exact (serialized_metadata_renders_as_parsed (platform := Bench.platform)
           Bench.guest Bench.empty (Bench.product 6 None JNull) "{}" (JObj ∅)
           eq_refl eq_refl).
Defined.

(** ** The end of the list *)

Lemma scroll_without_next_page (s : State) (pg : Pager) (w : WindowMetrics) :
  hasNextPage (pager_query pg) ≠ Some true →
  pager_step s pg (Scroll w) = pg.
Proof.
  intros Hmore. simpl. case_bool_decide as Hreq; [|reflexivity].
  apply handleScroll_requests in Hreq as (_ & _ & Hyes). contradiction.
Qed.

Lemma scrolls_without_next_page (s : State) (ws : list WindowMetrics) : ∀ pg,
  hasNextPage (pager_query pg) ≠ Some true →
  pager_run s pg (Scroll <$> ws) = pg.
Proof.
  induction ws as [|w ws IH]; intros pg Hmore; [reflexivity|].
  change (pager_run s pg (Scroll <$> w :: ws))
    with (pager_run s (pager_step s pg (Scroll w)) (Scroll <$> ws)).
  rewrite (scroll_without_next_page s pg w Hmore). apply IH, Hmore.
Qed.

(** X21. Infinite scroll stops at the last page: once a page without a
    next cursor has arrived, no run of scroll events, wherever the viewport
    is, asks for another page; after a page with a cursor, a scroll event
    within 100 pixels of the bottom asks for the next one. *)
Theorem last_page_stops_scrolling (s : State) (pg : Pager) (page : Page) :
  (getNextPageParam page = None →
   ∀ ws, pager_run s (pager_step s pg (PageArrived page)) (Scroll <$> ws)
         = pager_step s pg (PageArrived page))
  ∧ (∀ cursor w,
       getNextPageParam page = Some cursor →
       (offsetHeight w - 100 <= innerHeight w + scrollY w)%Q →
       pager_step s (pager_step s pg (PageArrived page)) (Scroll w)
       = fetchNextPage (pager_step s pg (PageArrived page))).
Proof.
  split.
  - intros Hlast ws. apply scrolls_without_next_page.
    simpl. rewrite Hlast. discriminate.
  - intros cursor w Hcursor Hnear.
    change (pager_step s ?p (Scroll w))
      with (if bool_decide (FetchNextPage ∈ trace (handleScroll (pager_query p) w) s)
            then fetchNextPage p else p).
    rewrite bool_decide_eq_true_2; [reflexivity|].
    apply handleScroll_requests. simpl. rewrite Hcursor. auto.
Qed.
